(** * colorado_snowfall: fetch_data.py

    A shallow embedding of [fetch_data.py] (site discovery, per-station
    download, wide-format parsing, wide-to-long pivot, aggregation) and the
    properties of it that the specification states.

    Conventions of the embedding.
    - A Python exception is the [Raise] branch of [result]; code that prints,
      sleeps or writes files runs in the monad [M], which threads a [state]
      (console output, files written, sleeps performed) and keeps the state
      reached when an exception leaves a function.
    - The remote service and the two parsing libraries are the environment:
      [http_get] answers a request, [html_table] is what BeautifulSoup finds
      in a page, [read_csv] is pandas' CSV reader.  They are section
      variables; every theorem holds for all of them.
    - A text is the sequence of the UTF-8 bytes of a Python string: the
      tests and cuts the program makes (prefix, substring, split on a
      character, comparison) give the same answer on the bytes as on the
      characters, and white space is recognised in its UTF-8 form.
    - A pandas DataFrame is its list of column labels and its list of rows;
      the row index is not modelled (every table built here is re-indexed
      with [ignore_index] / [reset_index], or its index is never read). *)

From Stdlib Require Import List String Ascii ZArith Bool Lia PeanoNat.
From Stdlib Require Import Sorting.Sorted Sorting.Permutation DecimalString.
Import ListNotations.
Open Scope string_scope.
Open Scope list_scope.

(** ** Values, exceptions, results *)

(** A table cell: missing ([NaN], what [notna] / [dropna] test), an integer
    or a text.  The program does no arithmetic on cells; a decimal
    measurement is carried as its text. *)
Inductive cell : Type :=
| NaN
| Int (z : Z)
| Str (s : string).

(** What [requests.get] can raise. *)
Inductive request_error : Type :=
| ReadTimeout
| ConnectionError.

(** The exceptions the program can meet. *)
Inductive exn : Type :=
| KeyError (label : string)
| IndexError
| ValueError_length_mismatch (expected given : nat)
| ValueError_no_objects
| TypeError_arity (params given : nat)
| RequestException (e : request_error)
| ValueError_not_unique (label : string)
| HTTPError (status : Z)
| EmptyDataError
| ParserError.

Inductive result (A : Type) : Type :=
| Ok (a : A)
| Raise (e : exn).
Arguments Ok {A} a.
Arguments Raise {A} e.

Definition rbind {A B} (r : result A) (k : A -> result B) : result B :=
  match r with
  | Ok a => k a
  | Raise e => Raise e
  end.

Declare Scope result_scope.
Delimit Scope result_scope with result.
Notation "x <- r ;; k" := (rbind r (fun x => k))
  (at level 61, r at next level, right associativity) : result_scope.

Fixpoint rmap {A B} (f : A -> result B) (l : list A) : result (list B) :=
  match l with
  | [] => Ok []
  | a :: l' =>
      (b <- f a ;;
       bs <- rmap f l' ;;
       Ok (b :: bs))%result
  end.

(** ** Text *)

Definition newline : ascii := ascii_of_nat 10.
Definition comma : ascii := ascii_of_nat 44.

(** [s.split(sep)] for a one-character separator: never empty. *)
Fixpoint split (sep : ascii) (s : string) : list string :=
  match s with
  | EmptyString => [EmptyString]
  | String c rest =>
      if Ascii.eqb c sep then EmptyString :: split sep rest
      else match split sep rest with
           | [] => [String c EmptyString]
           | h :: t => String c h :: t
           end
  end.

(** [sep.join(ls)]. *)
Definition join (sep : ascii) (ls : list string) : string :=
  String.concat (String sep EmptyString) ls.

Definition startswith (s pre : string) : bool := String.prefix pre s.

(** [sub in s]. *)
Fixpoint contains (sub s : string) : bool :=
  String.prefix sub s ||
  match s with
  | EmptyString => false
  | String _ rest => contains sub rest
  end.

(** A text given by its bytes. *)
Definition bytes (l : list nat) : string := string_of_list_ascii (map ascii_of_nat l).

(** The characters [str.strip] removes, those for which [str.isspace]
    holds, in UTF-8: U+0009 to U+000D, U+001C to U+0020, U+0085, U+00A0,
    U+1680, U+2000 to U+200A, U+2028, U+2029, U+202F, U+205F, U+3000. *)
Definition white_space : list string :=
  map bytes
      ([[9]; [10]; [11]; [12]; [13]; [28]; [29]; [30]; [31]; [32];
        [194; 133]; [194; 160]; [225; 154; 128]]
       ++ map (fun b => [226; 128; b]) (seq 128 11)
       ++ [[226; 128; 168]; [226; 128; 169]; [226; 128; 175];
           [226; 129; 159]; [227; 128; 128]]).

(** [s] is one white space character. *)
Definition is_white (s : string) : bool := existsb (String.eqb s) white_space.

(** The number of bytes of the white space character [s] starts with; 0
    when it starts with none. *)
Definition leading_space (s : string) : nat :=
  match find (fun w => String.prefix w s) white_space with
  | Some w => String.length w
  | None => 0
  end.

(** [s] without its first [skip] bytes and the white space that follows. *)
Fixpoint lstrip_from (skip : nat) (s : string) : string :=
  match s with
  | EmptyString => EmptyString
  | String c rest =>
      match skip with
      | S k => lstrip_from k rest
      | 0 => match leading_space s with
             | 0 => s
             | S k => lstrip_from k rest
             end
      end
  end.

Definition lstrip (s : string) : string := lstrip_from 0 s.

(** A text that ends with a white space character after its trailing
    white space was removed is that character. *)
Fixpoint rstrip (s : string) : string :=
  match s with
  | EmptyString => EmptyString
  | String c rest =>
      let r := rstrip rest in
      if is_white (String c r) then EmptyString else String c r
  end.

(** [s.strip()]. *)
Definition strip (s : string) : string := rstrip (lstrip s).

(** ** DataFrames *)

Record DataFrame : Type := mkDataFrame {
  columns : list string;
  rows : list (list cell)
}.

(** [len(df)]. *)
Definition len (df : DataFrame) : nat := List.length (rows df).

Definition at_ (i : nat) (row : list cell) : cell := nth i row NaN.

Definition notna (c : cell) : bool :=
  match c with
  | NaN => false
  | _ => true
  end.

(** All positions of [label] among [cols], counted from [i]. *)
Fixpoint get_indexer (label : string) (cols : list string) (i : nat) : list nat :=
  match cols with
  | [] => []
  | c :: cols' =>
      if String.eqb c label then i :: get_indexer label cols' (S i)
      else get_indexer label cols' (S i)
  end.

(** Positions of a label that must be present. *)
Definition get_loc (label : string) (cols : list string) : result (list nat) :=
  match get_indexer label cols 0 with
  | [] => Raise (KeyError label)
  | l => Ok l
  end.

Definition take (idx : list nat) (row : list cell) : list cell :=
  map (fun i => at_ i row) idx.

(** [df[keys]] for a list of labels: every column carrying a requested
    label, in the order requested; a label that is not a column raises. *)
Definition getitem_list (df : DataFrame) (keys : list string) : result DataFrame :=
  (locs <- rmap (fun k => get_loc k (columns df)) keys ;;
   let idx := List.concat locs in
   Ok {| columns := map (fun i => nth i (columns df) "") idx;
         rows := map (take idx) (rows df) |})%result.

(** [df[key]] for one label, as the column's values. *)
Definition getitem (df : DataFrame) (key : string) : result (list cell) :=
  (loc <- get_loc key (columns df) ;;
   Ok (map (at_ (hd 0 loc)) (rows df)))%result.

(** [df.columns = names]. *)
Definition set_columns (df : DataFrame) (names : list string) : result DataFrame :=
  if Nat.eqb (List.length (columns df)) (List.length names)
  then Ok {| columns := names; rows := rows df |}
  else Raise (ValueError_length_mismatch (List.length (columns df)) (List.length names)).

Fixpoint put (idx : list nat) (v : cell) (i : nat) (row : list cell) : list cell :=
  match row with
  | [] => []
  | c :: row' => (if existsb (Nat.eqb i) idx then v else c) :: put idx v (S i) row'
  end.

(** [df[key] = values], one value per row: an existing column is
    overwritten, a new one is appended as the last column. *)
Definition setitem (df : DataFrame) (key : string) (values : list cell) : DataFrame :=
  match get_indexer key (columns df) 0 with
  | [] => {| columns := columns df ++ [key];
             rows := map (fun rv => fst rv ++ [snd rv]) (combine (rows df) values) |}
  | idx => {| columns := columns df;
              rows := map (fun rv => put idx (snd rv) 0 (fst rv)) (combine (rows df) values) |}
  end.

(** [df[key] = v] for a scalar [v], broadcast to every row. *)
Definition setitem_scalar (df : DataFrame) (key : string) (v : cell) : DataFrame :=
  setitem df key (repeat v (len df)).

(** [df[mask]] for a boolean mask with one entry per row. *)
Definition getitem_mask (df : DataFrame) (mask : list bool) : DataFrame :=
  {| columns := columns df;
     rows := map fst (filter snd (combine (rows df) mask)) |}.

Definition all_na (idx : list nat) (row : list cell) : bool :=
  forallb (fun i => negb (notna (at_ i row))) idx.

(** [df.dropna(subset=subset, how='all')]. *)
Definition dropna_all (df : DataFrame) (subset : list string) : result DataFrame :=
  (locs <- rmap (fun k => get_loc k (columns df)) subset ;;
   let idx := List.concat locs in
   Ok {| columns := columns df;
         rows := filter (fun row => negb (all_na idx row)) (rows df) |})%result.

(** [df.reindex(columns=cols)]: the cells of a row under the labels [cols],
    [NaN] where the frame has no such column. *)
Definition reindex_row (from cols : list string) (row : list cell) : list cell :=
  map (fun c => match get_indexer c from 0 with
                | [] => NaN
                | i :: _ => at_ i row
                end) cols.

Definition same_columns (a b : list string) : bool :=
  if list_eq_dec string_dec a b then true else false.

Definition union_columns (frames : list DataFrame) : list string :=
  fold_left
    (fun acc df =>
       acc ++ filter (fun c => negb (existsb (String.eqb c) acc)) (columns df))
    frames [].

(** [pd.concat(frames, ignore_index=True)].  Frames that all carry the same
    labels are stacked as they are; otherwise the result has the union of the
    labels in order of first appearance and every frame is re-aligned to it
    (the case of frames with unique labels; the program only ever stacks
    frames with equal labels). *)
Definition pd_concat (frames : list DataFrame) : result DataFrame :=
  match frames with
  | [] => Raise ValueError_no_objects
  | first :: _ =>
      if forallb (fun df => same_columns (columns df) (columns first)) frames
      then Ok {| columns := columns first;
                 rows := flat_map rows frames |}
      else
        let cols := union_columns frames in
        Ok {| columns := cols;
              rows := flat_map
                        (fun df => map (reindex_row (columns df) cols) (rows df))
                        frames |}
  end.

Fixpoint lookup (k : string) (d : list (string * Z)) : option Z :=
  match d with
  | [] => None
  | (k', v) :: d' => if String.eqb k' k then Some v else lookup k d'
  end.

(** One value of [series.map(d)] for a dict [d]: a key that is not in the
    dict gives [NaN]. *)
Definition map_dict (d : list (string * Z)) (c : cell) : cell :=
  match c with
  | Str s => match lookup s d with
             | Some z => Int z
             | None => NaN
             end
  | _ => NaN
  end.

(** The order [sort_values] puts on the values of a key column: numbers
    before texts, missing values last ([na_position='last']); numbers by
    value, texts by code point. *)
Definition cell_compare (a b : cell) : comparison :=
  match a, b with
  | Int x, Int y => Z.compare x y
  | Int _, _ => Lt
  | Str _, Int _ => Gt
  | Str s, Str t => String.compare s t
  | Str _, NaN => Lt
  | NaN, NaN => Eq
  | NaN, _ => Gt
  end.

(** Keys of several columns compare column by column. *)
Fixpoint key_compare (k1 k2 : list cell) : comparison :=
  match k1, k2 with
  | [], [] => Eq
  | [], _ :: _ => Lt
  | _ :: _, [] => Gt
  | a :: k1', b :: k2' =>
      match cell_compare a b with
      | Eq => key_compare k1' k2'
      | c => c
      end
  end.

Definition key_leb (k1 k2 : list cell) : bool :=
  match key_compare k1 k2 with
  | Gt => false
  | _ => true
  end.

Section StableSort.
Variable key : list cell -> list cell.

(** [x] goes in front of the first row whose key is not smaller: rows with
    equal keys keep the order they came in. *)
Fixpoint insert_row (x : list cell) (l : list (list cell)) : list (list cell) :=
  match l with
  | [] => [x]
  | y :: l' =>
      if key_leb (key x) (key y) then x :: y :: l'
      else y :: insert_row x l'
  end.

Fixpoint stable_sort (l : list (list cell)) : list (list cell) :=
  match l with
  | [] => []
  | x :: l' => insert_row x (stable_sort l')
  end.
End StableSort.

(** The position of a label that names exactly one column. *)
Definition get_unique_loc (label : string) (cols : list string) : result nat :=
  match get_indexer label cols 0 with
  | [] => Raise (KeyError label)
  | [i] => Ok i
  | _ => Raise (ValueError_not_unique label)
  end.

(** [df.sort_values(by)] for a list of labels: a stable sort of the rows on
    the tuple of the key columns, ascending. *)
Definition sort_values (df : DataFrame) (by_ : list string) : result DataFrame :=
  (idx <- rmap (fun k => get_unique_loc k (columns df)) by_ ;;
   Ok {| columns := columns df;
         rows := stable_sort (take idx) (rows df) |})%result.

Fixpoint remove_at {A} (idx : list nat) (i : nat) (l : list A) : list A :=
  match l with
  | [] => []
  | a :: l' =>
      if existsb (Nat.eqb i) idx then remove_at idx (S i) l'
      else a :: remove_at idx (S i) l'
  end.

(** [df.drop(label, axis=1)]. *)
Definition drop_column (df : DataFrame) (label : string) : result DataFrame :=
  (idx <- get_loc label (columns df) ;;
   Ok {| columns := remove_at idx 0 (columns df);
         rows := map (remove_at idx 0) (rows df) |})%result.

(** [pd.DataFrame(records)] for a list of dicts: one column per key in order
    of first appearance, one row per dict. *)
Definition DataFrame_of_records (records : list (list (string * string))) : DataFrame :=
  let cols :=
    fold_left
      (fun acc d =>
         acc ++ filter (fun c => negb (existsb (String.eqb c) acc)) (map fst d))
      records [] in
  {| columns := cols;
     rows := map (fun d =>
                    map (fun c => match find (fun kv => String.eqb (fst kv) c) d with
                                  | Some kv => Str (snd kv)
                                  | None => NaN
                                  end) cols)
                 records |}.

(** [row[label]] for a row handed out by [iterrows]. *)
Definition series_getitem (cols : list string) (row : list cell) (label : string)
  : result cell :=
  (loc <- get_loc label cols ;;
   Ok (at_ (hd 0 loc) row))%result.

(** ** Effects *)

(** What the program prints, one constructor per [print] of the source. *)
Inductive output : Type :=
| Out_href (href : string)
| Out_download_error (site_num : cell) (e : exn)
| Out_month (month : string)
| Out_cols (cols : list string)
| Out_fetching
| Out_found (n : nat)
| Out_downloading (i n : nat) (site_name site_num : cell)
| Out_got_years (n : nat)
| Out_no_data_available
| Out_downloaded_sites (n : nat)
| Out_saved (save_path : string)
| Out_total_rows (n : nat)
| Out_no_data_downloaded.

Record state : Type := mkState {
  stdout : list output;
  files : list (string * DataFrame);
  slept : list Z
}.

Definition initial : state := {| stdout := []; files := []; slept := [] |}.

Definition M (A : Type) : Type := state -> result A * state.

Definition ret {A} (a : A) : M A := fun st => (Ok a, st).

Definition bind {A B} (m : M A) (k : A -> M B) : M B :=
  fun st =>
    match m st with
    | (Ok a, st') => k a st'
    | (Raise e, st') => (Raise e, st')
    end.

Definition lift {A} (r : result A) : M A := fun st => (r, st).

Declare Scope monad_scope.
Delimit Scope monad_scope with monad.
Notation "x <- m ;; k" := (bind m (fun x => k))
  (at level 61, m at next level, right associativity) : monad_scope.
Notation "m ;; k" := (bind m (fun _ => k))
  (at level 61, right associativity) : monad_scope.

(** [try: body  except Exception as e: handler e]. *)
Definition try_except {A} (body : M A) (handler : exn -> M A) : M A :=
  fun st =>
    match body st with
    | (Ok a, st') => (Ok a, st')
    | (Raise e, st') => handler e st'
    end.

Definition print (o : output) : M unit :=
  fun st => (Ok tt, {| stdout := stdout st ++ [o]; files := files st; slept := slept st |}).

(** [time.sleep(delay)]. *)
Definition sleep (delay : Z) : M unit :=
  fun st => (Ok tt, {| stdout := stdout st; files := files st; slept := slept st ++ [delay] |}).

(** [df.to_csv(path, index=False)]: the file holds the labels and the rows. *)
Definition to_csv (df : DataFrame) (path : string) : M unit :=
  fun st => (Ok tt, {| stdout := stdout st; files := (path, df) :: files st; slept := slept st |}).

(** A call of a function of [params] parameters with [given] positional
    arguments: Python raises [TypeError] before the body runs unless the two
    agree. *)
Definition call {A} (params given : nat) (body : M A) : M A :=
  if Nat.eqb params given then body
  else fun st => (Raise (TypeError_arity params given), st).

(** The loop [for x in l: acc = body(acc, x)]. *)
Fixpoint for_each {A B} (body : B -> A -> M B) (l : list A) (acc : B) : M B :=
  match l with
  | [] => ret acc
  | x :: l' => (acc' <- body acc x ;; for_each body l' acc')%monad
  end.

(** Python's truth value of a string or [None]. *)
Definition truthy (raw_data : option string) : bool :=
  match raw_data with
  | None => false
  | Some EmptyString => false
  | Some (String _ _) => true
  end.

(** [f"{v}"] for a cell. *)
Definition format (v : cell) : string :=
  match v with
  | NaN => "nan"
  | Int z => NilZero.string_of_int (Z.to_int z)
  | Str s => s
  end.

(** ** The environment *)

Record response : Type := mkResponse {
  status_code : Z;
  text : string
}.

Inductive http_outcome : Type :=
| Fails (e : request_error)
| Responds (r : response).

(** A [<tr>] of the directory page: the [href] of every [<a href=...>] in
    it and the text of every [<td>]. *)
Record table_row : Type := mkRow {
  hrefs : list string;
  cells : list string
}.

(** [response.raise_for_status()]: client and server error codes raise. *)
Definition raise_for_status (r : response) : result unit :=
  if ((400 <=? status_code r) && (status_code r <? 600))%Z
  then Raise (HTTPError (status_code r))
  else Ok tt.

(** ** The program *)

Definition month_names : list string := ["Jan"; "Feb"; "Mar"; "Apr"; "May"; "Jun"].

(** The labels [parse_snow_data] assigns: [water_year], then a date, a snow
    depth and a snow-water-equivalent label per month. *)
Definition new_columns : list string :=
  "water_year" ::
  flat_map (fun month => [(month ++ "_date")%string;
                          (month ++ "_snow_depth_in")%string;
                          (month ++ "_swe_in")%string]) month_names.

Definition id_cols : list string :=
  ["water_year"; "station"; "site_name"; "county"; "latitude"; "longitude"].

Definition months : list string := ["Jan"; "Feb"; "Mar"; "Apr"; "May"; "Jun"].

Definition month_order : list (string * Z) :=
  [("Jan", 1); ("Feb", 2); ("Mar", 3); ("Apr", 4); ("May", 5); ("Jun", 6)]%Z.

Definition measure_cols : list string := ["collection_date"; "snow_depth_in"; "swe_in"].

Definition sites_url : string :=
  "https://wcc.sc.egov.usda.gov/nwcc/snow-course-sites.jsp?state=CO".

Definition report_url (site_num : cell) : string :=
  ("https://wcc.sc.egov.usda.gov/reportGenerator/view_csv/customGroupByMonthReport/monthly/"
   ++ format site_num
   ++ ":CO:SNOW%7Cid=%22%22%7Cname/POR_BEGIN,POR_END:1,2,3,4,5,6/WTEQ::collectionDate,SNWD::value,WTEQ::value")%string.

(** The longest prefix of [s] without ['&']: what [[^&]+] consumes. *)
Fixpoint until_amp (s : string) : string :=
  match s with
  | EmptyString => EmptyString
  | String c rest => if Ascii.eqb c "&"%char then EmptyString else String c (until_amp rest)
  end.

(** [re.search(r'station=([^&]+)', href)], as the text of group 1 of the
    leftmost match. *)
Fixpoint search_station (href : string) : option string :=
  match href with
  | EmptyString => None
  | String _ rest =>
      if String.prefix "station=" href
      then match until_amp (String.substring 8 (String.length href - 8) href) with
           | EmptyString => search_station rest
           | g => Some g
           end
      else search_station rest
  end.

(** The line number of the first line starting with the marker (the [for]
    loop with [break] of [parse_snow_data]). *)
Fixpoint find_data_start (lines : list string) (i : nat) : option nat :=
  match lines with
  | [] => None
  | line :: rest =>
      if startswith line "Water Year," then Some i
      else find_data_start rest (S i)
  end.

(** The text handed to the CSV reader: the marker line and everything from
    two lines below it (the line in between describes the measurements). *)
Definition data_block (lines : list string) (data_start : nat) : string :=
  let data_lines := [nth data_start lines ""] ++ skipn (data_start + 2) lines in
  join newline data_lines.

Section Program.

(** The remote service: what a GET of a URL does. *)
Variable http_get : string -> http_outcome.
(** BeautifulSoup: the rows of the first table of a page, if it has one. *)
Variable html_table : string -> option (list table_row).
(** [pd.read_csv(StringIO(text), header=0)]. *)
Variable read_csv : string -> result DataFrame.

Definition requests_get (url : string) : result response :=
  match http_get url with
  | Fails e => Raise (RequestException e)
  | Responds r => Ok r
  end.

Definition cell_text (tds : list string) (i : nat) : result string :=
  match nth_error tds i with
  | Some td => Ok (strip td)
  | None => Raise IndexError
  end.

(** The body of the loop over the links of one row. *)
Definition scan_link (tds : list string) (sites : list (list (string * string)))
  (href : string) : M (list (list (string * string))) :=
  (if contains "station" href && contains "snowmonth_hist" href then
     print (Out_href href) ;;
     match search_station href with
     | Some station =>
         site_name <- lift (cell_text tds 1) ;;
         latitude <- lift (cell_text tds 5) ;;
         longitude <- lift (cell_text tds 6) ;;
         county <- lift (cell_text tds 9) ;;
         ret (sites ++ [[("station", station);
                         ("site_name", site_name);
                         ("latitude", latitude);
                         ("longitude", longitude);
                         ("county", county)]])
     | None => ret sites
     end
   else ret sites)%monad.

Definition get_colorado_sites : M DataFrame :=
  (response <- lift (requests_get sites_url) ;;
   sites <- match html_table (text response) with
            | Some trs =>
                for_each (fun sites row => for_each (scan_link (cells row)) (hrefs row) sites)
                         (skipn 1 trs) []
            | None => ret []
            end ;;
   ret (DataFrame_of_records sites))%monad.

Definition download_site_data (site_num : cell) : M (option string) :=
  let url := report_url site_num in
  try_except
    (response <- lift (requests_get url) ;;
     lift (raise_for_status response) ;;
     ret (Some (text response)))%monad
    (fun e => print (Out_download_error site_num e) ;; ret None)%monad.

Definition parse_snow_data (raw_data : option string) (station : cell)
  : result (option DataFrame) :=
  match raw_data with
  | None => Ok None
  | Some EmptyString => Ok None
  | Some raw =>
      let lines := split newline raw in
      match find_data_start lines 0 with
      | None => Ok None
      | Some data_start =>
          let data_text := data_block lines data_start in
          (df <- read_csv data_text ;;
           df <- set_columns df new_columns ;;
           let df := setitem_scalar df "station" station in
           water_year <- getitem df "water_year" ;;
           let df := getitem_mask df (map notna water_year) in
           Ok (Some df))%result
      end
  end.

(** The body of the loop over the months. *)
Definition month_frame (df : DataFrame) (monthly_dfs : list DataFrame) (month : string)
  : M (list DataFrame) :=
  (print (Out_month month) ;;
   let cols := id_cols ++ [(month ++ "_date")%string;
                           (month ++ "_snow_depth_in")%string;
                           (month ++ "_swe_in")%string] in
   print (Out_cols cols) ;;
   month_df <- lift (getitem_list df cols) ;;
   month_df <- lift (set_columns month_df (id_cols ++ measure_cols)) ;;
   let month_df := setitem_scalar month_df "month" (Str month) in
   month_df <- lift (dropna_all month_df measure_cols) ;;
   ret (monthly_dfs ++ [month_df]))%monad.

Definition pivot_to_long_format (df : DataFrame) : M DataFrame :=
  (monthly_dfs <- for_each (month_frame df) months [] ;;
   long_df <- lift (pd_concat monthly_dfs) ;;
   long_df <- lift (getitem_list long_df (id_cols ++ "month" :: measure_cols)) ;;
   month <- lift (getitem long_df "month") ;;
   let long_df := setitem long_df "month_num" (map (map_dict month_order) month) in
   long_df <- lift (sort_values long_df ["county"; "station"; "water_year"; "month_num"]) ;;
   long_df <- lift (drop_column long_df "month_num") ;;
   ret long_df)%monad.

(** The body of the loop over the stations; [idx] is the row number that
    [iterrows] hands out. *)
Definition process_site (sites_df : DataFrame) (delay : Z)
  (all_data : list DataFrame) (item : nat * list cell) : M (list DataFrame) :=
  let (idx, row) := item in
  (site_num <- lift (series_getitem (columns sites_df) row "site_num") ;;
   site_name <- lift (series_getitem (columns sites_df) row "site_name") ;;
   print (Out_downloading (idx + 1) (len sites_df) site_name site_num) ;;
   raw_data <- call 1 2 (download_site_data site_num) ;;
   all_data <-
     (if truthy raw_data then
        df <- call 2 3 (lift (parse_snow_data raw_data site_num)) ;;
        match df with
        | Some d =>
            if Nat.ltb 0 (len d)
            then print (Out_got_years (len d)) ;; ret (all_data ++ [d])
            else print Out_no_data_available ;; ret all_data
        | None => print Out_no_data_available ;; ret all_data
        end
      else ret all_data) ;;
   sleep delay ;;
   ret all_data)%monad.

Definition iterrows (df : DataFrame) : list (nat * list cell) :=
  combine (seq 0 (len df)) (rows df).

(** Lines 197-206: write the combined table, or report that there is none. *)
Definition save_all (all_data : list DataFrame) (save_path : string)
  : M (option DataFrame) :=
  (match all_data with
   | _ :: _ =>
       combined_df <- lift (pd_concat all_data) ;;
       to_csv combined_df save_path ;;
       print (Out_downloaded_sites (List.length all_data)) ;;
       print (Out_saved save_path) ;;
       print (Out_total_rows (len combined_df)) ;;
       ret (Some combined_df)
   | [] =>
       print Out_no_data_downloaded ;;
       ret None
   end)%monad.

Definition download_all_colorado_sites (save_path : string) (delay : Z)
  : M (option DataFrame) :=
  (print Out_fetching ;;
   sites_df <- get_colorado_sites ;;
   print (Out_found (len sites_df)) ;;
   all_data <- for_each (process_site sites_df delay) (iterrows sites_df) [] ;;
   save_all all_data save_path)%monad.

End Program.

(** ** A reference environment

    A reader for the plain fragment of CSV (no quoting, no blank fields
    other than missing values, no row longer than the header), a directory
    page and a station report.  They give the theorems below concrete runs. *)

Module Samples.

Definition parse_field (f : string) : cell :=
  match f with
  | EmptyString => NaN
  | _ => match NilZero.int_of_string f with
         | Some i => Int (Z.of_int i)
         | None => Str f
         end
  end.

Definition read_csv (data_text : string) : result DataFrame :=
  match filter (fun l => negb (String.eqb l "")) (split newline data_text) with
  | [] => Raise ParserError
  | header :: data =>
      let names := split comma header in
      let n := List.length names in
      (rs <- rmap (fun l =>
                     let fs := split comma l in
                     if Nat.leb (List.length fs) n
                     then Ok (map parse_field fs ++ repeat NaN (n - List.length fs))
                     else Raise ParserError) data ;;
       Ok {| columns := names; rows := rs |})%result
  end.

Definition nl : string := String newline EmptyString.

Definition header_line : string :=
  "Water Year,Jan,Jan,Jan,Feb,Feb,Feb,Mar,Mar,Mar,Apr,Apr,Apr,May,May,May,Jun,Jun,Jun".

Definition describe_line : string :=
  ",Date,Depth,SWE,Date,Depth,SWE,Date,Depth,SWE,Date,Depth,SWE,Date,Depth,SWE,Date,Depth,SWE".

(** A report: two comment lines, the marker line, the description line,
    two water years and an empty record. *)
Definition report : string :=
  ("# Snow course report" ++ nl ++
   "# station 05J01" ++ nl ++
   header_line ++ nl ++
   describe_line ++ nl ++
   "1936,Jan 30,32,10.5,,,,Mar 01,40,12.0,Apr 02,44,14.1,,,,,," ++ nl ++
   "1937,,,,Feb 01,30,9.0,,,,Mar 30,51,17.3,,,,,," ++ nl ++
   ",,,,,,,,,,,,,,,,,,")%string.

(** A report whose marker line names three columns only. *)
Definition truncated_report : string :=
  ("Water Year,Jan,Jan" ++ nl ++ ",Date,Depth" ++ nl ++ "1936,Jan 30,32")%string.

(** A report without the marker line. *)
Definition unmarked_report : string :=
  ("# Snow course report" ++ nl ++ "No data for this station")%string.

Definition station_row (station name county : string) : table_row :=
  {| hrefs := [("https://wcc.sc.egov.usda.gov/nwcc/rgrpt?report=snowmonth_hist&state=CO&station="
                ++ station ++ "&x=1")%string];
     cells := [""; (" " ++ name ++ " ")%string; "CO"; "SNOW"; "1936"; "39.80"; "-105.78";
               "10000"; "HUC"; county] |}.

Definition header_row : table_row := {| hrefs := []; cells := [] |}.

Definition page_of (n : nat) : string :=
  match n with
  | 0 => "empty"
  | 1 => "one"
  | _ => "three"
  end.

(** The directory pages: no station, one station, three stations. *)
Definition html_table (page : string) : option (list table_row) :=
  if String.eqb page "empty" then Some [header_row]
  else if String.eqb page "one" then
    Some [header_row; station_row "05J01" "Berthoud Pass" "Grand"]
  else
    Some [header_row;
          station_row "05J01" "Berthoud Pass" "Grand";
          station_row "06J02" "Cameron Pass" "Larimer";
          station_row "07K03" "Wolf Creek" "Mineral"].

(** A service whose directory lists [n] stations and that answers every
    report request but the one for station [06J02], which times out. *)
Definition http_get (n : nat) (url : string) : http_outcome :=
  if String.eqb url sites_url
  then Responds {| status_code := 200; text := page_of n |}
  else if String.eqb url (report_url (Str "06J02")) then Fails ReadTimeout
  else Responds {| status_code := 200; text := report |}.

(** A service whose directory lists [n] stations and whose report requests
    all fail. *)
Definition http_get_down (n : nat) (url : string) : http_outcome :=
  if String.eqb url sites_url
  then Responds {| status_code := 200; text := page_of n |}
  else Fails ConnectionError.

(** Services for the downloader alone. *)
Definition answering (status : Z) (body : string) (url : string) : http_outcome :=
  Responds {| status_code := status; text := body |}.

Definition failing (e : request_error) (url : string) : http_outcome := Fails e.

(** A wide table of one station: water year 1936 measured in January and
    April, water year 1935 in April only. *)
Definition wide : DataFrame :=
  {| columns := new_columns ++ ["station"; "site_name"; "county"; "latitude"; "longitude"];
     rows :=
       [ [Int 1936; Str "Jan 30"; Int 32; Str "10.5"; NaN; NaN; NaN; NaN; NaN; NaN;
          Str "Apr 02"; Int 44; Str "14.1"; NaN; NaN; NaN; NaN; NaN; NaN;
          Str "05J01"; Str "Berthoud Pass"; Str "Grand"; Str "39.80"; Str "-105.78"];
         [Int 1935; NaN; NaN; NaN; NaN; NaN; NaN; NaN; NaN; NaN;
          Str "Apr 01"; Int 40; NaN; NaN; NaN; NaN; NaN; NaN; NaN;
          Str "05J01"; Str "Berthoud Pass"; Str "Grand"; Str "39.80"; Str "-105.78"] ] |}.

End Samples.

(** ** Vocabulary of the statements *)

(** Every row has one cell per column, as in any pandas table. *)
Definition rectangular (df : DataFrame) : Prop :=
  Forall (fun row => List.length row = List.length (columns df)) (rows df).

(** The cell of [row] under [label], for a row of a table with labels [cols]. *)
Definition field (cols : list string) (label : string) (row : list cell) : cell :=
  at_ (hd 0 (get_indexer label cols 0)) row.

(** The labels of the long table. *)
Definition long_columns : list string :=
  ["water_year"; "station"; "site_name"; "county"; "latitude"; "longitude";
   "month"; "collection_date"; "snow_depth_in"; "swe_in"].

(** The labels [pivot_to_long_format] reads from its input. *)
Definition wide_labels : list string :=
  id_cols ++ flat_map (fun month => [(month ++ "_date")%string;
                                     (month ++ "_snow_depth_in")%string;
                                     (month ++ "_swe_in")%string]) months.

(** A wide table: each label the pivot reads names exactly one column. *)
Definition wide_table (df : DataFrame) : Prop :=
  Forall (fun label => exists i, get_indexer label (columns df) 0 = [i]) wide_labels.

(** The three measurements of a long row are all missing. *)
Definition no_measurement (cols : list string) (row : list cell) : Prop :=
  field cols "collection_date" row = NaN /\
  field cols "snow_depth_in" row = NaN /\
  field cols "swe_in" row = NaN.

(** The key the long table is ordered on: county, station, water year and
    the number of the month under [month_order]. *)
Definition long_key (cols : list string) (row : list cell) : list cell :=
  [field cols "county" row;
   field cols "station" row;
   field cols "water_year" row;
   map_dict month_order (field cols "month" row)].

Definition key_le (k1 k2 : list cell) : Prop := key_leb k1 k2 = true.

(** The keys of a station record of the directory. *)
Definition site_keys : list string :=
  ["station"; "site_name"; "latitude"; "longitude"; "county"].

(** A computation that writes no file. *)
Definition keeps_files {A} (m : M A) : Prop :=
  forall st, files (snd (m st)) = files st.

(** The labels of a per-month table of the pivot. *)
Definition month_columns : list string := (id_cols ++ measure_cols) ++ ["month"].

(** A per-month table for [month]: ten cells per row, the last one the
    month, and at least one of the three measurements (cells 6 to 8)
    present. *)
Definition month_table (month : string) (t : DataFrame) : Prop :=
  columns t = month_columns /\
  Forall (fun row => List.length row = 10 /\
                     at_ 9 row = Str month /\
                     all_na [6; 7; 8] row = false) (rows t).

(** The rows of the long table in terms of the per-month tables: the steps
    of [pivot_to_long_format] after its loop, labels resolved to positions
    (the month moves in front of the measurements, the month number is
    appended, the rows are sorted on county, station, water year and month
    number, the month number is removed). *)
Definition long_rows (monthly_dfs : list DataFrame) : list (list cell) :=
  map (remove_at [10] 0)
      (stable_sort (take [3; 1; 0; 10])
         (map (fun row => row ++ [map_dict month_order (at_ 6 row)])
              (map (take [0; 1; 2; 3; 4; 5; 9; 6; 7; 8])
                   (flat_map rows monthly_dfs)))).

(** The character [c] occurs in [s]. *)
Fixpoint mentions (c : ascii) (s : string) : bool :=
  match s with
  | EmptyString => false
  | String a rest => Ascii.eqb a c || mentions c rest
  end.

(** The three labels of a month in a wide table. *)
Definition month_labels (month : string) : list string :=
  [(month ++ "_date")%string; (month ++ "_snow_depth_in")%string; (month ++ "_swe_in")%string].

(** The row of a wide table has a measurement for [month]. *)
Definition measured (cols : list string) (month : string) (row : list cell) : bool :=
  existsb (fun label => notna (field cols label row)) (month_labels month).

(** The long row of [month] for a row of a wide table: the identifier
    cells, the month, the three cells of the month. *)
Definition long_row (cols : list string) (month : string) (row : list cell) : list cell :=
  map (fun label => field cols label row) id_cols
  ++ Str month :: map (fun label => field cols label row) (month_labels month).

(** A computation that only prints: it writes no file and does not sleep. *)
Definition only_prints {A} (m : M A) : Prop :=
  forall st, files (snd (m st)) = files st /\ slept (snd (m st)) = slept st.

(** A row of the directory: five texts, the station identifier as the
    link has it, the other four without surrounding white space. *)
Definition directory_row (row : list cell) : Prop :=
  exists station site_name latitude longitude county,
    row = [Str station; Str site_name; Str latitude; Str longitude; Str county] /\
    station <> "" /\ mentions "&" station = false /\
    strip site_name = site_name /\ strip latitude = latitude /\
    strip longitude = longitude /\ strip county = county.

(** The rows of the per-month table of [month] for a wide table with labels
    [cols] and rows [rs]: the identifier cells, the three cells of the month
    and the month, for the rows that have a measurement. *)
Definition month_table_rows (cols : list string) (month : string) (rs : list (list cell))
  : list (list cell) :=
  filter (fun row => negb (all_na [6; 7; 8] row))
         (map (fun r => map (fun label => field cols label r) (id_cols ++ month_labels month)
                        ++ [Str month]) rs).

(** A link that gives a station record: it holds both words the loop looks
    for and a station identifier. *)
Definition is_station_link (href : string) : bool :=
  contains "station" href && contains "snowmonth_hist" href &&
  match search_station href with
  | Some _ => true
  | None => false
  end.

(** * Properties *)

(** ** The order on sort keys *)

Lemma ascii_compare_lt_trans (a b c : ascii) :
  Ascii.compare a b = Lt -> Ascii.compare b c = Lt -> Ascii.compare a c = Lt.
Proof.
  unfold Ascii.compare. rewrite !N.compare_lt_iff. apply N.lt_trans.
Qed.

Lemma ascii_compare_refl (a : ascii) : Ascii.compare a a = Eq.
Proof. unfold Ascii.compare. apply N.compare_refl. Qed.

Lemma string_compare_refl (s : string) : String.compare s s = Eq.
Proof.
  induction s as [|a s IH]; simpl; [reflexivity|].
  now rewrite ascii_compare_refl.
Qed.

Lemma string_compare_lt_trans (s t u : string) :
  String.compare s t = Lt -> String.compare t u = Lt -> String.compare s u = Lt.
Proof.
  revert t u. induction s as [|a s IH]; intros [|b t] [|c u]; simpl; try congruence.
  destruct (Ascii.compare a b) eqn:Eab; try discriminate.
  - apply Ascii.compare_eq_iff in Eab. subst b.
    destruct (Ascii.compare a c); try congruence. apply IH.
  - intros _. destruct (Ascii.compare b c) eqn:Ebc; try discriminate.
    + apply Ascii.compare_eq_iff in Ebc. subst c. now rewrite Eab.
    + intros _. now rewrite (ascii_compare_lt_trans _ _ _ Eab Ebc).
Qed.

Lemma cell_compare_eq (a b : cell) : cell_compare a b = Eq -> a = b.
Proof.
  destruct a, b; simpl; try discriminate; trivial.
  - intros H. apply Z.compare_eq in H. now subst.
  - intros H. apply String.compare_eq_iff in H. now subst.
Qed.

Lemma cell_compare_refl (a : cell) : cell_compare a a = Eq.
Proof.
  destruct a; simpl; trivial.
  - apply Z.compare_refl.
  - apply string_compare_refl.
Qed.

Lemma cell_compare_antisym (a b : cell) :
  cell_compare b a = CompOpp (cell_compare a b).
Proof.
  destruct a, b; simpl; trivial.
  - apply Z.compare_antisym.
  - apply String.compare_antisym.
Qed.

Lemma cell_compare_lt_trans (a b c : cell) :
  cell_compare a b = Lt -> cell_compare b c = Lt -> cell_compare a c = Lt.
Proof.
  destruct a, b, c; simpl; try congruence.
  - rewrite !Z.compare_lt_iff. apply Z.lt_trans.
  - apply string_compare_lt_trans.
Qed.

Lemma key_compare_eq (k1 k2 : list cell) : key_compare k1 k2 = Eq -> k1 = k2.
Proof.
  revert k2. induction k1 as [|a k1 IH]; intros [|b k2]; simpl; try discriminate; trivial.
  destruct (cell_compare a b) eqn:E; try discriminate.
  intros H. apply cell_compare_eq in E. apply IH in H. now subst.
Qed.

Lemma key_compare_antisym (k1 k2 : list cell) :
  key_compare k2 k1 = CompOpp (key_compare k1 k2).
Proof.
  revert k2. induction k1 as [|a k1 IH]; intros [|b k2]; simpl; trivial.
  rewrite (cell_compare_antisym a b).
  destruct (cell_compare a b); simpl; trivial.
Qed.

Lemma key_compare_lt_trans (k1 k2 k3 : list cell) :
  key_compare k1 k2 = Lt -> key_compare k2 k3 = Lt -> key_compare k1 k3 = Lt.
Proof.
  revert k2 k3.
  induction k1 as [|a k1 IH]; intros [|b k2] [|c k3]; simpl; try congruence.
  destruct (cell_compare a b) eqn:Eab; try discriminate.
  - apply cell_compare_eq in Eab. subst b.
    destruct (cell_compare a c); try congruence. apply IH.
  - intros _. destruct (cell_compare b c) eqn:Ebc; try discriminate.
    + apply cell_compare_eq in Ebc. subst c. now rewrite Eab.
    + intros _. now rewrite (cell_compare_lt_trans _ _ _ Eab Ebc).
Qed.

Lemma key_leb_total (k1 k2 : list cell) :
  key_leb k1 k2 = false -> key_leb k2 k1 = true.
Proof.
  unfold key_leb. rewrite (key_compare_antisym k1 k2).
  destruct (key_compare k1 k2); simpl; congruence.
Qed.

Lemma key_leb_trans (k1 k2 k3 : list cell) :
  key_leb k1 k2 = true -> key_leb k2 k3 = true -> key_leb k1 k3 = true.
Proof.
  unfold key_leb.
  destruct (key_compare k1 k2) eqn:E12; try discriminate;
    destruct (key_compare k2 k3) eqn:E23; try discriminate; intros _ _.
  - apply key_compare_eq in E12. subst. now rewrite E23.
  - apply key_compare_eq in E12. subst. now rewrite E23.
  - apply key_compare_eq in E23. subst. now rewrite E12.
  - now rewrite (key_compare_lt_trans _ _ _ E12 E23).
Qed.

(** ** The stable sort *)

Section StableSortFacts.
Variable key : list cell -> list cell.

Lemma insert_row_perm (x : list cell) (l : list (list cell)) :
  Permutation (x :: l) (insert_row key x l).
Proof.
  induction l as [|y l IH]; simpl; [reflexivity|].
  destruct (key_leb (key x) (key y)); [reflexivity|].
  rewrite perm_swap. now constructor.
Qed.

Lemma stable_sort_perm (l : list (list cell)) :
  Permutation l (stable_sort key l).
Proof.
  induction l as [|x l IH]; simpl; [constructor|].
  rewrite <- insert_row_perm. now constructor.
Qed.

Lemma insert_row_sorted (x : list cell) (l : list (list cell)) :
  StronglySorted (fun a b => key_le (key a) (key b)) l ->
  StronglySorted (fun a b => key_le (key a) (key b)) (insert_row key x l).
Proof.
  induction 1 as [|y l Hs IH Hy]; simpl.
  - repeat constructor.
  - destruct (key_leb (key x) (key y)) eqn:E.
    + constructor; [now constructor|].
      constructor; [exact E|].
      eapply Forall_impl; [|exact Hy].
      intros z Hz. exact (key_leb_trans _ _ _ E Hz).
    + constructor; [exact IH|].
      apply (Permutation_Forall (insert_row_perm x l)).
      constructor; [|exact Hy].
      now apply key_leb_total.
Qed.

Lemma stable_sort_sorted (l : list (list cell)) :
  StronglySorted (fun a b => key_le (key a) (key b)) (stable_sort key l).
Proof.
  induction l as [|x l IH]; simpl; [constructor|].
  now apply insert_row_sorted.
Qed.
End StableSortFacts.

(** ** Results and effects *)

Lemma rbind_ok {A B} (r : result A) (k : A -> result B) (b : B) :
  rbind r k = Ok b -> exists a, r = Ok a /\ k a = Ok b.
Proof. destruct r as [a|e]; simpl; [eauto | discriminate]. Qed.

Lemma bind_ok {A B} (m : M A) (k : A -> M B) (st st' : state) (b : B) :
  bind m k st = (Ok b, st') ->
  exists a st1, m st = (Ok a, st1) /\ k a st1 = (Ok b, st').
Proof.
  unfold bind. destruct (m st) as [[a|e] st1]; [eauto | discriminate].
Qed.

Lemma lift_ok {A} (r : result A) (st st' : state) (a : A) :
  lift r st = (Ok a, st') -> r = Ok a /\ st' = st.
Proof. unfold lift. intros H. injection H as H1 H2. now subst. Qed.

Lemma combine_repeat {A B C} (f : A * B -> C) (v : B) (l : list A) :
  map f (combine l (repeat v (List.length l))) = map (fun a => f (a, v)) l.
Proof. induction l as [|a l IH]; simpl; [reflexivity | now rewrite IH]. Qed.

Lemma combine_map {A B C} (f : A * B -> C) (g : A -> B) (l : list A) :
  map f (combine l (map g l)) = map (fun a => f (a, g a)) l.
Proof. induction l as [|a l IH]; simpl; [reflexivity | now rewrite IH]. Qed.

Lemma mask_filter {A} (p : A -> bool) (l : list A) :
  map fst (filter snd (combine l (map p l))) = filter p l.
Proof.
  induction l as [|a l IH]; simpl; [reflexivity|].
  destruct (p a); simpl; now rewrite IH.
Qed.

Lemma filter_map_comm {A B} (f : A -> B) (p : B -> bool) (l : list A) :
  filter p (map f l) = map f (filter (fun a => p (f a)) l).
Proof.
  induction l as [|a l IH]; simpl; [reflexivity|].
  destruct (p (f a)); simpl; now rewrite IH.
Qed.

(** A new label is appended as the last column, with the same value in
    every row. *)
Lemma setitem_scalar_new (df : DataFrame) (key : string) (v : cell) :
  get_indexer key (columns df) 0 = [] ->
  setitem_scalar df key v =
  {| columns := columns df ++ [key];
     rows := map (fun row => row ++ [v]) (rows df) |}.
Proof.
  intros H. unfold setitem_scalar, setitem, len. rewrite H.
  f_equal. apply (combine_repeat (fun rv => fst rv ++ [snd rv])).
Qed.

Lemma setitem_new (cols : list string) (rs : list (list cell)) (key : string)
  (g : list cell -> cell) :
  get_indexer key cols 0 = [] ->
  setitem {| columns := cols; rows := rs |} key (map g rs) =
  {| columns := cols ++ [key];
     rows := map (fun row => row ++ [g row]) rs |}.
Proof.
  intros H. unfold setitem. cbn [columns rows]. rewrite H.
  f_equal. apply (combine_map (fun rv => fst rv ++ [snd rv])).
Qed.

(** ** The wide-format parser *)

Lemma find_data_start_none (lines : list string) (i : nat) :
  (forall line, In line lines -> startswith line "Water Year," = false) ->
  find_data_start lines i = None.
Proof.
  revert i. induction lines as [|l lines IH]; intros i H; simpl; [reflexivity|].
  rewrite (H l (or_introl eq_refl)). apply IH. intros line Hin. apply H. now right.
Qed.

Lemma find_data_start_nonempty (raw : string) (i n : nat) :
  find_data_start (split newline raw) i = Some n -> raw <> "".
Proof. intros H ->. discriminate H. Qed.

Section Parser.
Variable read_csv : string -> result DataFrame.

(** C10. A falsy [raw_data] (the empty text as well as [None]) makes
    [parse_snow_data] return [None] at once, whatever the CSV reader would
    do: an empty response body and a failed download are treated alike. *)
Theorem parse_snow_data_falsy (raw_data : option string) (station : cell) :
  truthy raw_data = false ->
  parse_snow_data read_csv raw_data station = Ok None.
Proof.
  destruct raw_data as [[|c raw]|]; simpl; intros H; try reflexivity.
  discriminate H.
Qed.

(** C4. A report in which no line starts with the marker [Water Year,]
    makes [parse_snow_data] return [None]; it does not raise. *)
Theorem parse_snow_data_no_marker (raw : string) (station : cell) :
  (forall line, In line (split newline raw) ->
                startswith line "Water Year," = false) ->
  parse_snow_data read_csv (Some raw) station = Ok None.
Proof.
  intros H. unfold parse_snow_data.
  destruct raw as [|c raw]; [reflexivity|].
  now rewrite (find_data_start_none _ 0 H).
Qed.

(** C6. When the data block of a report is read as a table whose number
    of columns is not that of the 19 fixed labels, [parse_snow_data]
    raises: the assignment of the labels fails on the length mismatch. *)
Theorem parse_snow_data_shape_mismatch
  (raw : string) (station : cell) (data_start : nat) (df : DataFrame) :
  find_data_start (split newline raw) 0 = Some data_start ->
  read_csv (data_block (split newline raw) data_start) = Ok df ->
  List.length (columns df) <> 19 ->
  parse_snow_data read_csv (Some raw) station =
  Raise (ValueError_length_mismatch (List.length (columns df)) 19).
Proof.
  intros Hstart Hcsv Hlen. unfold parse_snow_data.
  destruct raw as [|c raw]; [discriminate Hstart|].
  rewrite Hstart, Hcsv. simpl rbind. unfold set_columns.
  change (List.length new_columns) with 19.
  destruct (Nat.eqb_spec (List.length (columns df)) 19) as [E|E]; [contradiction|].
  reflexivity.
Qed.

(** C5, as the code has it.  For a well-formed report (the marker line is
    there and the data block is read as a rectangular table of 19 columns)
    [parse_snow_data] returns a table of 20 columns: [water_year], a date,
    snow-depth and SWE column for each of the six months, and [station].
    Its rows are the rows read whose first cell, the water year, is
    present, in their order, each tagged with the station. *)
Theorem parse_snow_data_wide
  (raw : string) (station : cell) (data_start : nat) (df0 : DataFrame) :
  find_data_start (split newline raw) 0 = Some data_start ->
  read_csv (data_block (split newline raw) data_start) = Ok df0 ->
  List.length (columns df0) = 19 ->
  rectangular df0 ->
  exists df,
    parse_snow_data read_csv (Some raw) station = Ok (Some df) /\
    columns df = new_columns ++ ["station"] /\
    List.length (columns df) = 20 /\
    rows df = map (fun row => row ++ [station])
                  (filter (fun row => notna (at_ 0 row)) (rows df0)) /\
    Forall (fun row => field (columns df) "water_year" row <> NaN) (rows df).
Proof.
  intros Hstart Hcsv Hlen Hrect. unfold parse_snow_data.
  destruct raw as [|c raw]; [discriminate Hstart|].
  rewrite Hstart, Hcsv. cbn [rbind]. unfold set_columns.
  change (List.length new_columns) with 19. rewrite Hlen.
  cbn [Nat.eqb rbind].
  rewrite setitem_scalar_new by reflexivity.
  unfold getitem. cbn [columns rows].
  change (get_loc "water_year" (new_columns ++ ["station"])) with (Ok [0]).
  cbn [rbind hd]. unfold getitem_mask. cbn [columns rows].
  eexists. split; [reflexivity|]. cbn [columns rows].
  split; [reflexivity|]. split; [reflexivity|].
  rewrite (map_map (at_ 0) notna).
  rewrite (mask_filter (fun row => notna (at_ 0 row))).
  rewrite filter_map_comm.
  assert (Hflt : filter (fun a => notna (at_ 0 (a ++ [station]))) (rows df0)
                 = filter (fun row => notna (at_ 0 row)) (rows df0)).
  { apply filter_ext_in. intros row Hin.
    unfold rectangular in Hrect. rewrite Forall_forall in Hrect.
    specialize (Hrect row Hin). rewrite Hlen in Hrect.
    destruct row; [discriminate Hrect | reflexivity]. }
  rewrite Hflt. split; [reflexivity|].
  apply Forall_forall. intros row Hin.
  apply in_map_iff in Hin. destruct Hin as [r [<- Hr]].
  apply filter_In in Hr. destruct Hr as [Hr1 Hr2].
  unfold rectangular in Hrect. rewrite Forall_forall in Hrect.
  specialize (Hrect r Hr1). rewrite Hlen in Hrect.
  destruct r as [|c0 r]; [discriminate Hrect|].
  change (field (new_columns ++ ["station"]) "water_year" ((c0 :: r) ++ [station])) with c0.
  intros ->. discriminate Hr2.
Qed.

End Parser.

(** ** Computations that write no file *)

Lemma keeps_files_ret {A} (a : A) : keeps_files (ret a).
Proof. intros st. reflexivity. Qed.

Lemma keeps_files_lift {A} (r : result A) : keeps_files (lift r).
Proof. intros st. reflexivity. Qed.

Lemma keeps_files_print (o : output) : keeps_files (print o).
Proof. intros st. reflexivity. Qed.

Lemma keeps_files_sleep (delay : Z) : keeps_files (sleep delay).
Proof. intros st. reflexivity. Qed.

Lemma keeps_files_bind {A B} (m : M A) (k : A -> M B) :
  keeps_files m -> (forall a, keeps_files (k a)) -> keeps_files (bind m k).
Proof.
  intros Hm Hk st. unfold bind. specialize (Hm st).
  destruct (m st) as [[a|e] st1]; simpl in *; [|exact Hm].
  now rewrite (Hk a st1).
Qed.

Lemma keeps_files_try_except {A} (body : M A) (handler : exn -> M A) :
  keeps_files body -> (forall e, keeps_files (handler e)) ->
  keeps_files (try_except body handler).
Proof.
  intros Hm Hk st. unfold try_except. specialize (Hm st).
  destruct (body st) as [[a|e] st1]; simpl in *; [exact Hm|].
  now rewrite (Hk e st1).
Qed.

Lemma keeps_files_call {A} (params given : nat) (body : M A) :
  keeps_files body -> keeps_files (call params given body).
Proof.
  intros H st. unfold call. destruct (Nat.eqb params given); [apply H | reflexivity].
Qed.

Lemma keeps_files_for_each {A B} (body : B -> A -> M B) (l : list A) (acc : B) :
  (forall acc x, keeps_files (body acc x)) -> keeps_files (for_each body l acc).
Proof.
  intros H. revert acc. induction l as [|x l IH]; intros acc; simpl.
  - apply keeps_files_ret.
  - apply keeps_files_bind; [apply H | intros a; apply IH].
Qed.

Create HintDb files.
#[local] Hint Resolve keeps_files_ret keeps_files_lift keeps_files_print
  keeps_files_sleep keeps_files_bind keeps_files_try_except keeps_files_call
  keeps_files_for_each : files.

(** An invariant of the accumulator of a loop holds of its result. *)
Lemma for_each_invariant {A B} (P : B -> Prop) (body : B -> A -> M B) (l : list A) :
  (forall acc x st acc' st', P acc -> body acc x st = (Ok acc', st') -> P acc') ->
  forall acc st r st', P acc -> for_each body l acc st = (Ok r, st') -> P r.
Proof.
  intros Hbody. induction l as [|x l IH]; intros acc st r st' Hacc H; simpl in H.
  - injection H as <- _. exact Hacc.
  - apply bind_ok in H. destruct H as [acc1 [st1 [H1 H2]]].
    eapply IH; [|exact H2]. eapply Hbody; eassumption.
Qed.

(** ** The downloader *)

Section Downloader.
Variable http_get : string -> http_outcome.

(** C3. Whatever the station identifier: when the GET raises (a timeout,
    a connection error) or the response carries a client or server error
    status, which [raise_for_status] turns into an exception,
    [download_site_data] prints the error and returns [None]; when the
    response has a 2xx status it returns the response text and prints
    nothing. *)
Theorem download_site_data_outcomes (site_num : cell) (st : state) :
  (forall e, http_get (report_url site_num) = Fails e ->
     download_site_data http_get site_num st =
     (Ok None, snd (print (Out_download_error site_num (RequestException e)) st)))
  /\
  (forall r, http_get (report_url site_num) = Responds r ->
     (400 <= status_code r < 600)%Z ->
     download_site_data http_get site_num st =
     (Ok None, snd (print (Out_download_error site_num (HTTPError (status_code r))) st)))
  /\
  (forall r, http_get (report_url site_num) = Responds r ->
     (200 <= status_code r < 300)%Z ->
     download_site_data http_get site_num st = (Ok (Some (text r)), st)).
Proof.
  unfold download_site_data, try_except, bind, lift, requests_get, raise_for_status.
  repeat split.
  - intros e ->. reflexivity.
  - intros r -> [Hlo Hhi].
    apply Z.leb_le in Hlo. apply Z.ltb_lt in Hhi. now rewrite Hlo, Hhi.
  - intros r -> [Hlo Hhi].
    destruct (400 <=? status_code r)%Z eqn:E; [|reflexivity].
    apply Z.leb_le in E. lia.
Qed.
End Downloader.

(** ** The directory *)

Lemma records_columns (records : list (list (string * string))) :
  Forall (fun d => map fst d = site_keys) records ->
  columns (DataFrame_of_records records) =
  match records with
  | [] => []
  | _ :: _ => site_keys
  end.
Proof.
  unfold DataFrame_of_records. cbn [columns].
  assert (Hfold : forall l, Forall (fun d => map fst d = site_keys) l ->
            fold_left (fun acc (d : list (string * string)) =>
                         acc ++ filter (fun c => negb (existsb (String.eqb c) acc)) (map fst d))
                      l site_keys = site_keys).
  { induction l as [|d l IH]; intros H; [reflexivity|].
    inversion H as [|? ? Hd Hl]; subst. cbn [fold_left]. rewrite Hd.
    change (site_keys ++ filter (fun c => negb (existsb (String.eqb c) site_keys)) site_keys)
      with site_keys.
    now apply IH. }
  intros H. destruct records as [|d l]; [reflexivity|].
  inversion H as [|? ? Hd Hl]; subst. cbn [fold_left]. rewrite Hd.
  change ([] ++ filter (fun c => negb (existsb (String.eqb c) [])) site_keys)
    with site_keys.
  now apply Hfold.
Qed.

Lemma records_rows (records : list (list (string * string))) :
  List.length (rows (DataFrame_of_records records)) = List.length records.
Proof. unfold DataFrame_of_records. cbn [rows]. apply length_map. Qed.

Section Aggregator.
Variable http_get : string -> http_outcome.
Variable html_table : string -> option (list table_row).
Variable read_csv : string -> result DataFrame.

Lemma scan_link_records (tds : list string) (sites sites' : list (list (string * string)))
  (href : string) (st st' : state) :
  Forall (fun d => map fst d = site_keys) sites ->
  scan_link tds sites href st = (Ok sites', st') ->
  Forall (fun d => map fst d = site_keys) sites'.
Proof.
  intros Hs H. unfold scan_link in H.
  destruct (contains "station" href && contains "snowmonth_hist" href).
  - apply bind_ok in H. destruct H as [[] [st1 [_ H]]].
    destruct (search_station href) as [station|].
    + repeat (apply bind_ok in H; destruct H as [? [? [_ H]]]).
      injection H as <- _. apply Forall_app. split; [exact Hs|].
      constructor; [reflexivity | constructor].
    + injection H as <- _. exact Hs.
  - injection H as <- _. exact Hs.
Qed.

(** The directory has no column [site_num]: its columns are the keys of
    the station records, or none when no station was found. *)
Lemma get_colorado_sites_columns (st st' : state) (sites_df : DataFrame) :
  get_colorado_sites http_get html_table st = (Ok sites_df, st') ->
  columns sites_df = (match rows sites_df with [] => [] | _ :: _ => site_keys end).
Proof.
  intros H. unfold get_colorado_sites in H.
  apply bind_ok in H. destruct H as [response [st1 [_ H]]].
  apply bind_ok in H. destruct H as [sites [st2 [Hsites H]]].
  injection H as <- _.
  assert (Hrec : Forall (fun d => map fst d = site_keys) sites).
  { destruct (html_table (text response)) as [trs|].
    - revert Hsites. apply for_each_invariant; [|constructor].
      intros acc row s acc' s' Hacc. apply for_each_invariant; [|exact Hacc].
      intros acc0 href s0 acc0' s0' Hacc0. now apply scan_link_records.
    - injection Hsites as <- _. constructor. }
  rewrite (records_columns _ Hrec).
  pose proof (records_rows sites) as Hlen.
  destruct sites, (rows (DataFrame_of_records _)); try discriminate Hlen; reflexivity.
Qed.

Lemma get_colorado_sites_keeps_files : keeps_files (get_colorado_sites http_get html_table).
Proof.
  unfold get_colorado_sites, scan_link.
  apply keeps_files_bind; [solve [auto with files]|]. intros response.
  apply keeps_files_bind; [|auto with files].
  destruct (html_table (text response)); [|auto with files].
  apply keeps_files_for_each. intros acc row.
  apply keeps_files_for_each. intros acc0 href.
  destruct (contains "station" href && contains "snowmonth_hist" href); [|auto with files].
  apply keeps_files_bind; [solve [auto with files]|]. intros _.
  destruct (search_station href); [|auto with files].
  repeat (apply keeps_files_bind; [solve [auto with files]|]; intros ?).
  auto with files.
Qed.

Lemma download_site_data_keeps_files (site_num : cell) :
  keeps_files (download_site_data http_get site_num).
Proof.
  unfold download_site_data. apply keeps_files_try_except.
  - repeat (apply keeps_files_bind; [solve [auto with files]|]; intros ?). auto with files.
  - intros e. apply keeps_files_bind; auto with files.
Qed.

Lemma process_site_keeps_files (sites_df : DataFrame) (delay : Z)
  (all_data : list DataFrame) (item : nat * list cell) :
  keeps_files (process_site http_get read_csv sites_df delay all_data item).
Proof.
  unfold process_site. destruct item as [idx row].
  repeat (apply keeps_files_bind; [solve [auto with files]|]; intros ?).
  apply keeps_files_bind.
  { apply keeps_files_call. apply download_site_data_keeps_files. }
  intros raw_data. apply keeps_files_bind.
  - destruct (truthy raw_data); [|auto with files].
    apply keeps_files_bind; [solve [auto with files]|]. intros [d|].
    + destruct (Nat.ltb 0 (len d)); apply keeps_files_bind; auto with files.
    + apply keeps_files_bind; auto with files.
  - intros all_data'. apply keeps_files_bind; auto with files.
Qed.

(** C1. As soon as the directory lists a station, the run of
    [download_all_colorado_sites] stops at the first one with
    [KeyError: 'site_num']: the rows of the directory carry the station
    identifier under [station].  No station is downloaded, parsed or
    pivoted, and no file is written. *)
Theorem download_all_colorado_sites_raises
  (save_path : string) (delay : Z) (st st1 : state) (sites_df : DataFrame) :
  get_colorado_sites http_get html_table (snd (print Out_fetching st)) = (Ok sites_df, st1) ->
  rows sites_df <> [] ->
  download_all_colorado_sites http_get html_table read_csv save_path delay st =
  (Raise (KeyError "site_num"), snd (print (Out_found (len sites_df)) st1))
  /\ files (snd (print (Out_found (len sites_df)) st1)) = files st.
Proof.
  intros Hsites Hrows. split.
  - unfold download_all_colorado_sites, bind at 1. cbn [print snd] in Hsites |- *.
    unfold bind at 1. rewrite Hsites. unfold bind at 1. cbn [print snd].
    pose proof (get_colorado_sites_columns _ _ _ Hsites) as Hcols.
    unfold iterrows, len. destruct (rows sites_df) as [|row rs]; [contradiction|].
    cbn [List.length seq combine for_each]. unfold bind at 1.
    unfold process_site, bind at 1, lift at 1, series_getitem.
    rewrite Hcols. reflexivity.
  - pose proof (get_colorado_sites_keeps_files (snd (print Out_fetching st))) as H.
    rewrite Hsites in H. exact H.
Qed.

(** The two calls of the loop body pass one argument too many: each would
    raise [TypeError] were it reached. *)
Lemma call_mismatch {A} (params given : nat) (body : M A) (st : state) :
  params <> given ->
  call params given body st = (Raise (TypeError_arity params given), st).
Proof.
  intros H. unfold call. now destruct (Nat.eqb_spec params given).
Qed.

(** The part of a run before the combined table is written or the
    failure reported writes no file. *)
Lemma stations_loop_keeps_files (sites_df : DataFrame) (delay : Z) :
  keeps_files (for_each (process_site http_get read_csv sites_df delay)
                        (iterrows sites_df) []).
Proof. apply keeps_files_for_each. intros. apply process_site_keeps_files. Qed.

(** The report of failure (lines 204 to 206).  When the loop over the
    stations ends with an empty list of per-station tables,
    [download_all_colorado_sites] prints that no data was downloaded,
    returns [None] and has written no file.  The loop ends only for a
    directory without stations. *)
Theorem download_all_colorado_sites_no_data
  (save_path : string) (delay : Z) (st st1 st2 : state) (sites_df : DataFrame) :
  get_colorado_sites http_get html_table (snd (print Out_fetching st)) = (Ok sites_df, st1) ->
  for_each (process_site http_get read_csv sites_df delay) (iterrows sites_df) []
           (snd (print (Out_found (len sites_df)) st1)) = (Ok [], st2) ->
  download_all_colorado_sites http_get html_table read_csv save_path delay st =
  (Ok None, snd (print Out_no_data_downloaded st2))
  /\ files (snd (print Out_no_data_downloaded st2)) = files st.
Proof.
  intros Hsites Hloop. split.
  - unfold download_all_colorado_sites, bind at 1. cbn [print snd] in Hsites, Hloop |- *.
    unfold bind at 1. rewrite Hsites. unfold bind at 1. cbn [print snd].
    unfold bind at 1. rewrite Hloop. reflexivity.
  - pose proof (get_colorado_sites_keeps_files (snd (print Out_fetching st))) as H1.
    rewrite Hsites in H1.
    pose proof (stations_loop_keeps_files sites_df delay
                  (snd (print (Out_found (len sites_df)) st1))) as H2.
    rewrite Hloop in H2. cbn [snd print files] in *. congruence.
Qed.

(** No run of [download_all_colorado_sites] writes a file. *)
Lemma download_all_colorado_sites_writes_nothing
  (save_path : string) (delay : Z) (st : state) :
  files (snd (download_all_colorado_sites http_get html_table read_csv save_path delay st))
  = files st.
Proof.
  destruct (get_colorado_sites http_get html_table (snd (print Out_fetching st)))
    as [[sites_df|e] st1] eqn:Hsites.
  - pose proof (get_colorado_sites_keeps_files (snd (print Out_fetching st))) as H1.
    rewrite Hsites in H1. cbn [snd print files] in H1.
    pose proof (get_colorado_sites_columns _ _ _ Hsites) as Hcols.
    unfold download_all_colorado_sites, bind at 1. cbn [print snd] in Hsites |- *.
    unfold bind at 1. rewrite Hsites. unfold bind at 1. cbn [print snd].
    unfold iterrows, len. destruct (rows sites_df) as [|row rs].
    + cbn. exact H1.
    + cbn [List.length seq combine for_each]. unfold bind at 1.
      unfold process_site, bind at 1, lift at 1, series_getitem.
      rewrite Hcols. cbn. exact H1.
  - pose proof (get_colorado_sites_keeps_files (snd (print Out_fetching st))) as H1.
    rewrite Hsites in H1. cbn [snd print files] in H1.
    unfold download_all_colorado_sites, bind at 1. cbn [print snd] in Hsites |- *.
    unfold bind at 1. rewrite Hsites. exact H1.
Qed.

End Aggregator.

(** ** The pivot *)

Lemma concat_singletons {A} (l : list A) : List.concat (map (fun a => [a]) l) = l.
Proof. induction l as [|a l IH]; simpl; [reflexivity | now rewrite IH]. Qed.

Lemma get_locs_unique (cols keys : list string) :
  Forall (fun label => exists i, get_indexer label cols 0 = [i]) keys ->
  exists idx, rmap (fun k => get_loc k cols) keys = Ok (map (fun i => [i]) idx)
              /\ List.length idx = List.length keys.
Proof.
  induction 1 as [|k keys [i Hi] _ [idx [IH Hlen]]].
  - exists []. split; reflexivity.
  - exists (i :: idx). cbn [rmap]. unfold get_loc at 1. rewrite Hi, IH.
    split; [reflexivity | simpl; now rewrite Hlen].
Qed.

Lemma pd_concat_same (c : list string) (t : DataFrame) (ts : list DataFrame) :
  Forall (fun t' => columns t' = c) (t :: ts) ->
  pd_concat (t :: ts) = Ok {| columns := c; rows := flat_map rows (t :: ts) |}.
Proof.
  intros H. unfold pd_concat.
  assert (Hall : forallb (fun df => same_columns (columns df) (columns t)) (t :: ts) = true).
  { apply forallb_forall. intros t' Hin. rewrite Forall_forall in H.
    rewrite (H t' Hin), (H t (or_introl eq_refl)). unfold same_columns.
    destruct (list_eq_dec string_dec c c); [reflexivity | contradiction]. }
  rewrite Hall. rewrite Forall_forall in H. now rewrite (H t (or_introl eq_refl)).
Qed.

Section Pivot.

(** What one turn of the loop over the months adds. *)
Lemma month_frame_ok (df : DataFrame) (acc acc' : list DataFrame) (month : string)
  (st st' : state) :
  month_frame df acc month st = (Ok acc', st') ->
  exists t, acc' = acc ++ [t] /\ month_table month t.
Proof.
  intros H. unfold month_frame in H.
  apply bind_ok in H. destruct H as [[] [s1 [_ H]]].
  apply bind_ok in H. destruct H as [[] [s2 [_ H]]].
  apply bind_ok in H. destruct H as [t1 [s3 [H1 H]]]. apply lift_ok in H1. destruct H1 as [H1 _].
  apply bind_ok in H. destruct H as [t2 [s4 [H2 H]]]. apply lift_ok in H2. destruct H2 as [H2 _].
  apply bind_ok in H. destruct H as [t3 [s5 [H3 H]]]. apply lift_ok in H3. destruct H3 as [H3 _].
  injection H as <- _.
  unfold getitem_list in H1. apply rbind_ok in H1. destruct H1 as [locs [_ H1]].
  injection H1 as <-.
  unfold set_columns in H2. cbn [columns rows] in H2.
  rewrite length_map in H2. change (List.length (id_cols ++ measure_cols)) with 9 in H2.
  destruct (Nat.eqb_spec (List.length (List.concat locs)) 9) as [Hlen|]; [|discriminate H2].
  injection H2 as <-.
  rewrite setitem_scalar_new in H3 by reflexivity. cbn [columns rows] in H3.
  unfold dropna_all in H3. cbn [columns rows] in H3.
  change (rmap (fun k => get_loc k ((id_cols ++ measure_cols) ++ ["month"])) measure_cols)
    with (Ok (A := list (list nat)) [[6]; [7]; [8]]) in H3.
  cbn [rbind List.concat app] in H3. injection H3 as <-.
  eexists. split; [reflexivity|]. split; [reflexivity|]. cbn [rows].
  apply Forall_forall. intros row Hin. apply filter_In in Hin. destruct Hin as [Hin Hna].
  apply in_map_iff in Hin. destruct Hin as [r1 [<- Hin]].
  apply in_map_iff in Hin. destruct Hin as [r0 [<- _]].
  assert (Ht : List.length (take (List.concat locs) r0) = 9)
    by (unfold take; now rewrite length_map).
  split; [rewrite length_app, Ht; reflexivity|].
  split; [|now apply negb_true_iff in Hna].
  unfold at_. rewrite app_nth2 by lia. rewrite Ht. reflexivity.
Qed.

Lemma months_loop_ok (df : DataFrame) (ms : list string) :
  forall (acc r : list DataFrame) (st st' : state),
    for_each (month_frame df) ms acc st = (Ok r, st') ->
    exists ts, r = acc ++ ts /\ Forall2 month_table ms ts.
Proof.
  induction ms as [|m ms IH]; intros acc r st st' H; simpl in H.
  - injection H as <- _. exists []. split; [now rewrite app_nil_r | constructor].
  - apply bind_ok in H. destruct H as [acc1 [st1 [H1 H2]]].
    apply month_frame_ok in H1. destruct H1 as [t [-> Ht]].
    apply IH in H2. destruct H2 as [ts [-> Hts]].
    exists (t :: ts). split; [now rewrite <- app_assoc | now constructor].
Qed.

(** The steps after the loop, run on the per-month tables. *)
Lemma pivot_eval (df : DataFrame) (ts : list DataFrame) (st st1 : state) :
  for_each (month_frame df) months [] st = (Ok ts, st1) ->
  pivot_to_long_format df st =
  (Ok {| columns := long_columns; rows := long_rows ts |}, st1).
Proof.
  intros H. pose proof (months_loop_ok _ _ _ _ _ _ H) as [ts' [E Hts]].
  cbn [app] in E. subst ts'.
  assert (Hcols : Forall (fun t => columns t = month_columns) ts).
  { clear H. induction Hts as [|m t ms ts [Hc _] _ IH]; constructor; assumption. }
  unfold pivot_to_long_format, bind at 1. rewrite H.
  destruct ts as [|t ts]; [inversion Hts|].
  unfold bind at 1, lift at 1. rewrite (pd_concat_same _ _ _ Hcols).
  unfold bind at 1, lift at 1, getitem_list. cbn [columns rows].
  change (rmap (fun k => get_loc k month_columns) (id_cols ++ "month" :: measure_cols))
    with (Ok (A := list (list nat)) [[0]; [1]; [2]; [3]; [4]; [5]; [9]; [6]; [7]; [8]]).
  cbn [rbind List.concat app].
  change (map (fun i => nth i month_columns "") [0; 1; 2; 3; 4; 5; 9; 6; 7; 8])
    with long_columns.
  unfold bind at 1, lift at 1, getitem. cbn [columns rows].
  change (get_loc "month" long_columns) with (Ok (A := list nat) [6]).
  cbn [rbind hd]. rewrite map_map.
  rewrite (setitem_new _ _ "month_num" (fun row => map_dict month_order (at_ 6 row)))
    by reflexivity.
  cbn [columns rows].
  unfold bind at 1, lift at 1, sort_values. cbn [columns rows].
  change (rmap (fun k => get_unique_loc k (long_columns ++ ["month_num"]))
               ["county"; "station"; "water_year"; "month_num"])
    with (Ok (A := list nat) [3; 1; 0; 10]).
  cbn [rbind].
  unfold bind at 1, lift at 1, drop_column. cbn [columns rows].
  change (get_loc "month_num" (long_columns ++ ["month_num"])) with (Ok (A := list nat) [10]).
  cbn [rbind].
  reflexivity.
Qed.

Lemma month_frame_total (df : DataFrame) (month : string) :
  wide_table df -> In month months ->
  forall acc st, exists acc' st', month_frame df acc month st = (Ok acc', st').
Proof.
  intros Hw Hm acc st. unfold wide_table in Hw. rewrite Forall_forall in Hw.
  assert (Hkeys : Forall (fun label => exists i, get_indexer label (columns df) 0 = [i])
                         (id_cols ++ [(month ++ "_date")%string;
                                      (month ++ "_snow_depth_in")%string;
                                      (month ++ "_swe_in")%string])).
  { apply Forall_forall. intros k Hk. apply Hw. unfold wide_labels.
    apply in_app_or in Hk. apply in_or_app. destruct Hk as [Hk|Hk]; [now left|].
    right. apply in_flat_map. exists month. split; assumption. }
  apply get_locs_unique in Hkeys. destruct Hkeys as [idx [Hidx Hlen]].
  unfold month_frame, bind, print, lift, getitem_list. rewrite Hidx. cbn [rbind].
  rewrite concat_singletons. unfold set_columns. cbn [columns rows].
  rewrite length_map, Hlen. cbn [List.length app id_cols measure_cols Nat.eqb].
  rewrite setitem_scalar_new by reflexivity. cbn [columns rows].
  unfold dropna_all. cbn [columns rows].
  change (rmap (fun k => get_loc k ((id_cols ++ measure_cols) ++ ["month"])) measure_cols)
    with (Ok (A := list (list nat)) [[6]; [7]; [8]]).
  cbn [rbind]. eexists. eexists. reflexivity.
Qed.

Lemma months_loop_total (df : DataFrame) (ms : list string) :
  wide_table df -> incl ms months ->
  forall acc st, exists ts st1, for_each (month_frame df) ms acc st = (Ok ts, st1).
Proof.
  intros Hw. induction ms as [|m ms IH]; intros Hincl acc st; simpl.
  - eexists. eexists. reflexivity.
  - destruct (month_frame_total df m Hw (Hincl m (or_introl eq_refl)) acc st)
      as [acc1 [st1 H1]].
    unfold bind. rewrite H1. apply IH. intros x Hx. apply Hincl. now right.
Qed.

(** On a wide table the pivot returns a table. *)
Lemma pivot_total (df : DataFrame) (st : state) :
  wide_table df -> exists long st', pivot_to_long_format df st = (Ok long, st').
Proof.
  intros Hw.
  destruct (months_loop_total df months Hw (incl_refl _) [] st) as [ts [st1 H]].
  eexists. eexists. apply (pivot_eval _ _ _ _ H).
Qed.

(** What the pivot returns is built from the per-month tables of its loop. *)
Lemma pivot_inv (df : DataFrame) (st st' : state) (long : DataFrame) :
  pivot_to_long_format df st = (Ok long, st') ->
  exists ts st1,
    for_each (month_frame df) months [] st = (Ok ts, st1) /\
    Forall2 month_table months ts /\
    long = {| columns := long_columns; rows := long_rows ts |}.
Proof.
  intros H. pose proof H as H0. unfold pivot_to_long_format in H0.
  apply bind_ok in H0. destruct H0 as [ts [st1 [Hloop _]]].
  exists ts, st1. split; [exact Hloop|].
  pose proof (months_loop_ok _ _ _ _ _ _ Hloop) as [ts' [E Hts]].
  cbn [app] in E. subst ts'. split; [exact Hts|].
  rewrite (pivot_eval _ _ _ _ Hloop) in H. now injection H as <- _.
Qed.

Lemma month_rows (ms : list string) (ts : list DataFrame) :
  Forall2 month_table ms ts ->
  Forall (fun r => List.length r = 10 /\ all_na [6; 7; 8] r = false) (flat_map rows ts).
Proof.
  induction 1 as [|m t ms ts [_ Ht] _ IH]; cbn [flat_map]; [constructor|].
  apply Forall_app. split; [|exact IH].
  eapply Forall_impl; [|exact Ht]. intros r [H1 [_ H2]]. now split.
Qed.

Ltac ten_cells r H :=
  do 10 (destruct r as [|? r]; [discriminate H|]);
  destruct r; [|discriminate H].

Lemma all_na_measurements (r : list cell) :
  all_na [6; 7; 8] r = false ->
  ~ (at_ 6 r = NaN /\ at_ 7 r = NaN /\ at_ 8 r = NaN).
Proof.
  intros H [H6 [H7 H8]]. unfold all_na in H. cbn [forallb] in H.
  rewrite H6, H7, H8 in H. discriminate H.
Qed.

(** Removing the month number undoes its insertion. *)
Lemma long_row_shape (r : list cell) :
  List.length r = 10 ->
  let x := take [0; 1; 2; 3; 4; 5; 9; 6; 7; 8] r in
  remove_at [10] 0 (x ++ [map_dict month_order (at_ 6 x)]) = x /\
  long_key long_columns x = take [3; 1; 0; 10] (x ++ [map_dict month_order (at_ 6 x)]) /\
  field long_columns "collection_date" x = at_ 6 r /\
  field long_columns "snow_depth_in" x = at_ 7 r /\
  field long_columns "swe_in" x = at_ 8 r.
Proof.
  intros H. ten_cells r H. cbv zeta. repeat split; reflexivity.
Qed.

Lemma long_rows_perm (ms : list string) (ts : list DataFrame) :
  Forall2 month_table ms ts ->
  Permutation (long_rows ts)
              (map (take [0; 1; 2; 3; 4; 5; 9; 6; 7; 8]) (flat_map rows ts)).
Proof.
  intros Hts. pose proof (month_rows _ _ Hts) as HR. unfold long_rows.
  rewrite <- (Permutation_map _ (stable_sort_perm (take [3; 1; 0; 10]) _)).
  rewrite !map_map.
  erewrite map_ext_in; [reflexivity|].
  intros r Hin. rewrite Forall_forall in HR. destruct (HR r Hin) as [Hlen _].
  apply (long_row_shape r Hlen).
Qed.

Lemma long_rows_measured (ms : list string) (ts : list DataFrame) :
  Forall2 month_table ms ts ->
  Forall (fun row => ~ no_measurement long_columns row) (long_rows ts).
Proof.
  intros Hts. pose proof (month_rows _ _ Hts) as HR.
  apply (Permutation_Forall (Permutation_sym (long_rows_perm _ _ Hts))).
  apply Forall_forall. intros row Hin. apply in_map_iff in Hin.
  destruct Hin as [r [<- Hin]]. rewrite Forall_forall in HR.
  destruct (HR r Hin) as [Hlen Hna].
  destruct (long_row_shape r Hlen) as [_ [_ [H6 [H7 H8]]]].
  unfold no_measurement. rewrite H6, H7, H8. now apply all_na_measurements.
Qed.

Lemma sorted_map (key key' : list cell -> list cell) (f : list cell -> list cell)
  (P : list cell -> Prop) (l : list (list cell)) :
  (forall a, P a -> key' (f a) = key a) ->
  Forall P l ->
  StronglySorted (fun a b => key_le (key a) (key b)) l ->
  StronglySorted (fun a b => key_le (key' a) (key' b)) (map f l).
Proof.
  intros Hkey HP Hs. induction Hs as [|a l Hs IH Ha]; cbn [map]; [constructor|].
  inversion HP as [|? ? Pa Pl]; subst. constructor; [now apply IH|].
  apply Forall_map. rewrite Forall_forall in *. intros b Hb.
  rewrite (Hkey a Pa), (Hkey b (Pl b Hb)). now apply Ha.
Qed.

Lemma long_rows_sorted (ms : list string) (ts : list DataFrame) :
  Forall2 month_table ms ts ->
  StronglySorted (fun a b => key_le (long_key long_columns a) (long_key long_columns b))
                 (long_rows ts).
Proof.
  intros Hts. pose proof (month_rows _ _ Hts) as HR. unfold long_rows.
  set (tk := take [0; 1; 2; 3; 4; 5; 9; 6; 7; 8]).
  set (ext := fun row : list cell => row ++ [map_dict month_order (at_ 6 row)]).
  apply (sorted_map (take [3; 1; 0; 10]) _ _
           (fun x => exists r, List.length r = 10 /\ x = ext (tk r))).
  - intros x [r [Hlen ->]].
    destruct (long_row_shape r Hlen) as [E1 [E2 _]]. fold tk in E1, E2.
    unfold ext. rewrite E1. exact E2.
  - apply (Permutation_Forall (stable_sort_perm _ _)).
    rewrite map_map. apply Forall_map. eapply Forall_impl; [|exact HR].
    intros r [Hlen _]. exists r. now split.
  - apply stable_sort_sorted.
Qed.

End Pivot.

Lemma month_table_measured (month : string) (t : DataFrame) :
  month_table month t ->
  Forall (fun row => ~ no_measurement (columns t) row) (rows t).
Proof.
  intros [Hc Hr]. rewrite Hc. eapply Forall_impl; [|exact Hr].
  intros row [_ [_ Hna]]. now apply all_na_measurements.
Qed.

(** C7. Whatever table the pivot is given: a wide table makes it return,
    and no row of a table it returns has its collection date, snow depth and
    SWE all missing.  The rows with no measurement are dropped from each
    per-month table of the loop, before the tables are stacked: every
    per-month table is free of them, and the long rows are the per-month
    rows (the month moved in front of the measurements), in another order. *)
Theorem pivot_to_long_format_measured (df : DataFrame) (st : state) :
  (wide_table df -> exists long st', pivot_to_long_format df st = (Ok long, st'))
  /\
  (forall long st',
     pivot_to_long_format df st = (Ok long, st') ->
     columns long = long_columns /\
     Forall (fun row => ~ no_measurement (columns long) row) (rows long) /\
     exists monthly_dfs st1,
       for_each (month_frame df) months [] st = (Ok monthly_dfs, st1) /\
       Forall (fun t => Forall (fun row => ~ no_measurement (columns t) row) (rows t))
              monthly_dfs /\
       Permutation (rows long)
                   (map (take [0; 1; 2; 3; 4; 5; 9; 6; 7; 8]) (flat_map rows monthly_dfs))).
Proof.
  split; [apply pivot_total|].
  intros long st' H. apply pivot_inv in H. destruct H as [ts [st1 [Hloop [Hts ->]]]].
  cbn [columns rows]. split; [reflexivity|].
  split; [exact (long_rows_measured _ _ Hts)|].
  exists ts, st1. split; [exact Hloop|]. split; [|exact (long_rows_perm _ _ Hts)].
  clear Hloop. induction Hts as [|m t ms ts Ht _ IH]; constructor; [|exact IH].
  exact (month_table_measured _ _ Ht).
Qed.

(** C8. Whatever table the pivot is given: a wide table makes it return,
    and a table it returns has the ten long-format columns, without the
    month number used for sorting, and its rows are in ascending order of
    county, then station, then water year, then month number under
    Jan=1 ... Jun=6.  That order is not the order of the month names: the
    number of Jan is below that of Apr, the name Apr is below the name Jan. *)
Theorem pivot_to_long_format_sorted (df : DataFrame) (st : state) :
  (wide_table df -> exists long st', pivot_to_long_format df st = (Ok long, st'))
  /\
  (forall long st',
     pivot_to_long_format df st = (Ok long, st') ->
     columns long = long_columns /\
     ~ In "month_num" (columns long) /\
     StronglySorted
       (fun a b => key_le (long_key (columns long) a) (long_key (columns long) b))
       (rows long))
  /\
  (map (map_dict month_order) (map Str months) = [Int 1; Int 2; Int 3; Int 4; Int 5; Int 6] /\
   cell_compare (map_dict month_order (Str "Jan")) (map_dict month_order (Str "Apr")) = Lt /\
   cell_compare (Str "Apr") (Str "Jan") = Lt).
Proof.
  split; [apply pivot_total|]. split; [|repeat split].
  intros long st' H. apply pivot_inv in H. destruct H as [ts [st1 [_ [Hts ->]]]].
  cbn [columns rows]. split; [reflexivity|]. split.
  - cbn [In long_columns]. intros H. repeat (destruct H as [H|H]; [discriminate H|]). exact H.
  - exact (long_rows_sorted _ _ Hts).
Qed.

(** * Runs in the reference environment *)

(** The empty text and [None] are both parsed to [None]. *)
Lemma parse_snow_data_falsy_run :
  parse_snow_data Samples.read_csv (Some "") (Str "05J01") = Ok None /\
  parse_snow_data Samples.read_csv None (Str "05J01") = Ok None.
Proof.
  split.
  - apply (parse_snow_data_falsy Samples.read_csv (Some "") (Str "05J01")). reflexivity.
  - apply (parse_snow_data_falsy Samples.read_csv None (Str "05J01")). reflexivity.
Defined.

(** A report of two lines, neither being the marker line. *)
Lemma parse_snow_data_no_marker_run :
  parse_snow_data Samples.read_csv (Some Samples.unmarked_report) (Str "05J01") = Ok None.
Proof.
  apply (parse_snow_data_no_marker Samples.read_csv Samples.unmarked_report (Str "05J01")).
  intros line Hin. vm_compute in Hin.
  destruct Hin as [<-|[<-|[]]]; reflexivity.
Defined.

(** A report whose data block has three columns. *)
Lemma parse_snow_data_shape_mismatch_run :
  parse_snow_data Samples.read_csv (Some Samples.truncated_report) (Str "05J01") =
  Raise (ValueError_length_mismatch 3 19).
Proof.
  refine (parse_snow_data_shape_mismatch Samples.read_csv Samples.truncated_report
            (Str "05J01") 0
            {| columns := ["Water Year"; "Jan"; "Jan"];
               rows := [[Int 1936; Str "Jan 30"; Int 32]] |} _ _ _).
  - reflexivity.
  - vm_compute. reflexivity.
  - cbn. discriminate.
Defined.

(** The report of the reference environment is parsed into a table of 20
    columns: the count of 19 columns does not hold. *)
Lemma parse_snow_data_20_columns :
  exists df,
    parse_snow_data Samples.read_csv (Some Samples.report) (Str "05J01") = Ok (Some df) /\
    List.length (rows df) = 2 /\
    List.length (columns df) = 20 /\
    List.length (columns df) <> 19.
Proof.
  eexists. split; [vm_compute; reflexivity|].
  cbn. repeat split. discriminate.
Qed.

(** The same report: two water years out of three records, 20 columns. *)
Lemma parse_snow_data_wide_run :
  exists df,
    parse_snow_data Samples.read_csv (Some Samples.report) (Str "05J01") = Ok (Some df) /\
    columns df = new_columns ++ ["station"] /\
    List.length (columns df) = 20 /\
    map (field (columns df) "water_year") (rows df) = [Int 1936; Int 1937] /\
    map (field (columns df) "station") (rows df) = [Str "05J01"; Str "05J01"].
Proof.
  destruct (parse_snow_data_wide Samples.read_csv Samples.report (Str "05J01") 2
              {| columns := split comma Samples.header_line;
                 rows := [ [Int 1936; Str "Jan 30"; Int 32; Str "10.5"; NaN; NaN; NaN;
                            Str "Mar 01"; Int 40; Str "12.0"; Str "Apr 02"; Int 44;
                            Str "14.1"; NaN; NaN; NaN; NaN; NaN; NaN];
                           [Int 1937; NaN; NaN; NaN; Str "Feb 01"; Int 30; Str "9.0";
                            NaN; NaN; NaN; Str "Mar 30"; Int 51; Str "17.3";
                            NaN; NaN; NaN; NaN; NaN; NaN];
                           repeat NaN 19 ] |})
    as [df [Hdf [Hcols [Hlen [Hrows _]]]]].
  - reflexivity.
  - vm_compute. reflexivity.
  - reflexivity.
  - repeat constructor.
  - exists df. split; [exact Hdf|]. split; [exact Hcols|]. split; [exact Hlen|].
    rewrite Hcols, Hrows. split; reflexivity.
Defined.

(** A timeout, a 404 and a 200. *)
Lemma download_site_data_runs :
  download_site_data (Samples.failing ReadTimeout) (Str "05J01") initial =
    (Ok None,
     {| stdout := [Out_download_error (Str "05J01") (RequestException ReadTimeout)];
        files := []; slept := [] |}) /\
  download_site_data (Samples.answering 404 "Not Found") (Str "05J01") initial =
    (Ok None,
     {| stdout := [Out_download_error (Str "05J01") (HTTPError 404)];
        files := []; slept := [] |}) /\
  download_site_data (Samples.answering 200 Samples.report) (Str "05J01") initial =
    (Ok (Some Samples.report), initial).
Proof.
  split; [|split].
  - apply (proj1 (download_site_data_outcomes (Samples.failing ReadTimeout)
                    (Str "05J01") initial) ReadTimeout).
    reflexivity.
  - apply (proj1 (proj2 (download_site_data_outcomes (Samples.answering 404 "Not Found")
                           (Str "05J01") initial))
             {| status_code := 404; text := "Not Found" |}).
    + reflexivity.
    + cbn. lia.
  - apply (proj2 (proj2 (download_site_data_outcomes (Samples.answering 200 Samples.report)
                           (Str "05J01") initial))
             {| status_code := 200; text := Samples.report |}).
    + reflexivity.
    + cbn. lia.
Defined.

Lemma wide_table_sample : wide_table Samples.wide.
Proof.
  unfold wide_table. repeat constructor; eexists; vm_compute; reflexivity.
Defined.

(** Of the twelve per-month rows of the sample, the three with a
    measurement remain. *)
Lemma pivot_to_long_format_measured_run :
  exists long st',
    pivot_to_long_format Samples.wide initial = (Ok long, st') /\
    List.length (rows long) = 3 /\
    Forall (fun row => ~ no_measurement (columns long) row) (rows long).
Proof.
  destruct (pivot_to_long_format_measured Samples.wide initial) as [Htotal Hrows].
  destruct (Htotal wide_table_sample) as [long [st' H]].
  exists long, st'. split; [exact H|].
  split; [|exact (proj1 (proj2 (Hrows long st' H)))].
  vm_compute in H. injection H as <- _. reflexivity.
Defined.

(** Water year 1935 comes first; within 1936, Jan comes before Apr. *)
Lemma pivot_to_long_format_sorted_run :
  exists long st',
    pivot_to_long_format Samples.wide initial = (Ok long, st') /\
    map (fun row => (field (columns long) "water_year" row, field (columns long) "month" row))
        (rows long)
    = [(Int 1935, Str "Apr"); (Int 1936, Str "Jan"); (Int 1936, Str "Apr")] /\
    StronglySorted
      (fun a b => key_le (long_key (columns long) a) (long_key (columns long) b))
      (rows long).
Proof.
  destruct (pivot_to_long_format_sorted Samples.wide initial) as [Htotal [Hsorted _]].
  destruct (Htotal wide_table_sample) as [long [st' H]].
  exists long, st'. split; [exact H|].
  split; [|exact (proj2 (proj2 (Hsorted long st' H)))].
  vm_compute in H. injection H as <- _. reflexivity.
Defined.

(** A directory of one station. *)
Lemma download_all_colorado_sites_raises_run :
  fst (download_all_colorado_sites (Samples.http_get 1) Samples.html_table Samples.read_csv
         "colorado_snow_data.csv" 1 initial) = Raise (KeyError "site_num") /\
  files (snd (download_all_colorado_sites (Samples.http_get 1) Samples.html_table
                Samples.read_csv "colorado_snow_data.csv" 1 initial)) = [].
Proof.
  edestruct (download_all_colorado_sites_raises (Samples.http_get 1) Samples.html_table
               Samples.read_csv "colorado_snow_data.csv" 1 initial) as [Hrun Hfiles].
  - vm_compute. reflexivity.
  - cbn. discriminate.
  - rewrite Hrun. split; [reflexivity | exact Hfiles].
Defined.

(** C2. In the reference environment the directory lists three stations
    and exactly one download, that of station 06J02, fails.  The run of
    [download_all_colorado_sites] does not complete: it raises
    [KeyError: 'site_num'] at the first station and writes no table. *)
Theorem download_all_colorado_sites_three_stations :
  (exists sites_df st',
     get_colorado_sites (Samples.http_get 3) Samples.html_table initial = (Ok sites_df, st') /\
     map (field (columns sites_df) "station") (rows sites_df)
     = [Str "05J01"; Str "06J02"; Str "07K03"]) /\
  map (fun station => fst (download_site_data (Samples.http_get 3) station initial))
      [Str "05J01"; Str "06J02"; Str "07K03"]
  = [Ok (Some Samples.report); Ok None; Ok (Some Samples.report)] /\
  fst (download_all_colorado_sites (Samples.http_get 3) Samples.html_table Samples.read_csv
         "colorado_snow_data.csv" 1 initial) = Raise (KeyError "site_num") /\
  files (snd (download_all_colorado_sites (Samples.http_get 3) Samples.html_table
                Samples.read_csv "colorado_snow_data.csv" 1 initial)) = [].
Proof.
  split; [eexists; eexists; split; [vm_compute; reflexivity | reflexivity]|].
  split; [vm_compute; reflexivity|].
  split; vm_compute; reflexivity.
Qed.

(** A directory without stations. *)
Lemma download_all_colorado_sites_no_data_run :
  download_all_colorado_sites (Samples.http_get 0) Samples.html_table Samples.read_csv
    "colorado_snow_data.csv" 1 initial =
  (Ok None,
   {| stdout := [Out_fetching; Out_found 0; Out_no_data_downloaded];
      files := []; slept := [] |}).
Proof.
  edestruct (download_all_colorado_sites_no_data (Samples.http_get 0) Samples.html_table
               Samples.read_csv "colorado_snow_data.csv" 1 initial) as [Hrun _].
  - vm_compute. reflexivity.
  - vm_compute. reflexivity.
  - rewrite Hrun. reflexivity.
Defined.

(** * Further properties *)

(** ** Texts *)

Lemma append_nil_r (s : string) : (s ++ "")%string = s.
Proof. induction s as [|c s IH]; simpl; [reflexivity | now rewrite IH]. Qed.

Lemma append_assoc (s t u : string) : ((s ++ t) ++ u)%string = (s ++ t ++ u)%string.
Proof. induction s as [|c s IH]; simpl; [reflexivity | now rewrite IH]. Qed.

Lemma length_append (s t : string) :
  String.length (s ++ t) = String.length s + String.length t.
Proof. induction s as [|c s IH]; simpl; [reflexivity | now rewrite IH]. Qed.

Lemma append_inv_head (p s t : string) : (p ++ s)%string = (p ++ t)%string -> s = t.
Proof.
  induction p as [|c p IH]; simpl; intros H; [exact H|].
  injection H as H. now apply IH.
Qed.

Lemma append_inv_tail (s t u : string) : (s ++ u)%string = (t ++ u)%string -> s = t.
Proof.
  revert t. induction s as [|a s IH]; intros [|b t] H; simpl in H.
  - reflexivity.
  - apply (f_equal String.length) in H. simpl in H. rewrite length_append in H. lia.
  - apply (f_equal String.length) in H. simpl in H. rewrite length_append in H. lia.
  - injection H as -> H. f_equal. now apply IH.
Qed.

Lemma substring_all (s : string) : String.substring 0 (String.length s) s = s.
Proof. induction s as [|c s IH]; simpl; [reflexivity | now rewrite IH]. Qed.

Lemma prefix_append (p t : string) : String.prefix p (p ++ t) = true.
Proof.
  induction p as [|a p IH]; simpl; [now destruct t|].
  destruct (ascii_dec a a); [exact IH | contradiction].
Qed.

(** A prefix splits the text: the rest is what [substring] cuts off. *)
Lemma prefix_rest (p s : string) :
  String.prefix p s = true ->
  s = (p ++ String.substring (String.length p) (String.length s - String.length p) s)%string.
Proof.
  revert s. induction p as [|a p IH]; intros s H.
  - simpl. now rewrite Nat.sub_0_r, substring_all.
  - destruct s as [|b s]; simpl in H; [discriminate H|].
    destruct (ascii_dec a b) as [->|]; [|discriminate H].
    simpl. f_equal. now apply IH.
Qed.

Lemma substring_append (p t : string) :
  String.substring (String.length p) (String.length (p ++ t) - String.length p) (p ++ t) = t.
Proof.
  apply (append_inv_head p). rewrite <- prefix_rest; [reflexivity | apply prefix_append].
Qed.

(** Whether a text starts with [p] shows on its first [length p] characters. *)
Lemma prefix_app_long (p x y : string) :
  String.length p <= String.length x ->
  String.prefix p (x ++ y) = String.prefix p x.
Proof.
  revert x. induction p as [|a p IH]; intros x H.
  - now destruct x, y.
  - destruct x as [|b x]; simpl in H; [lia|]. simpl.
    destruct (ascii_dec a b); [apply IH; lia | reflexivity].
Qed.

Lemma split_nonempty (sep : ascii) (s : string) : split sep s <> [].
Proof.
  destruct s as [|c s]; simpl; [discriminate|].
  destruct (Ascii.eqb c sep); [discriminate|].
  destruct (split sep s); discriminate.
Qed.

(** The lines of two texts put together by a separator are the lines of
    the one followed by the lines of the other. *)
Lemma split_app (sep : ascii) (a b : string) :
  split sep (a ++ String sep b) = split sep a ++ split sep b.
Proof.
  induction a as [|c a IH]; simpl.
  - now rewrite Ascii.eqb_refl.
  - destruct (Ascii.eqb c sep); [now rewrite IH|].
    rewrite IH. pose proof (split_nonempty sep a) as Hne.
    destruct (split sep a); [contradiction | reflexivity].
Qed.

Lemma split_single (sep : ascii) (s : string) :
  mentions sep s = false -> split sep s = [s].
Proof.
  induction s as [|c s IH]; simpl; [reflexivity|]. intros H.
  apply orb_false_iff in H. destruct H as [Hc Hs].
  rewrite Hc, (IH Hs). reflexivity.
Qed.

Lemma join_cons (sep : ascii) (l : string) (ls : list string) :
  ls <> [] -> join sep (l :: ls) = (l ++ String sep (join sep ls))%string.
Proof. intros H. unfold join. destruct ls; [contradiction | reflexivity]. Qed.

(** Lines that hold no separator are the lines of their join. *)
Lemma split_join (sep : ascii) (ls : list string) :
  ls <> [] -> Forall (fun l => mentions sep l = false) ls ->
  split sep (join sep ls) = ls.
Proof.
  induction ls as [|l ls IH]; intros Hne H; [contradiction|].
  inversion H as [|? ? Hl Hls]; subst.
  destruct ls as [|l' ls].
  - unfold join. simpl. now apply split_single.
  - rewrite join_cons by discriminate. rewrite split_app, (split_single _ _ Hl).
    rewrite IH; [reflexivity | discriminate | exact Hls].
Qed.

(** ** The station identifier of a link *)

Lemma search_station_eq (c : ascii) (rest : string) :
  search_station (String c rest) =
  if String.prefix "station=" (String c rest)
  then match until_amp (String.substring 8 (String.length (String c rest) - 8)
                                         (String c rest)) with
       | EmptyString => search_station rest
       | g => Some g
       end
  else search_station rest.
Proof. reflexivity. Qed.

Lemma until_amp_spec (s : string) :
  exists post,
    s = (until_amp s ++ post)%string /\
    (post = "" \/ exists p, post = String "&" p) /\
    mentions "&" (until_amp s) = false.
Proof.
  induction s as [|c s [post [E [Hpost Hm]]]]; simpl.
  - exists "". repeat split. now left.
  - destruct (Ascii.eqb_spec c "&") as [->|Hc].
    + exists (String "&" s). repeat split. right. now exists s.
    + exists post. simpl. split; [now rewrite <- E|]. split; [exact Hpost|].
      apply Ascii.eqb_neq in Hc. now rewrite Hc.
Qed.

Lemma until_amp_app (g post : string) :
  mentions "&" g = false ->
  (post = "" \/ exists p, post = String "&" p) ->
  until_amp (g ++ post) = g.
Proof.
  intros Hg Hpost. induction g as [|c g IH]; simpl in *.
  - destruct Hpost as [->|[p ->]]; reflexivity.
  - apply orb_false_iff in Hg. destruct Hg as [Hc Hg].
    rewrite Hc. now rewrite (IH Hg).
Qed.

Lemma search_station_inv (href g : string) :
  search_station href = Some g ->
  g <> "" /\ mentions "&" g = false /\
  exists pre post,
    href = (pre ++ "station=" ++ g ++ post)%string /\
    (post = "" \/ exists p, post = String "&" p).
Proof.
  induction href as [|c rest IH]; [discriminate|].
  rewrite search_station_eq.
  assert (Hrec : search_station rest = Some g ->
                 g <> "" /\ mentions "&" g = false /\
                 exists pre post,
                   String c rest = (pre ++ "station=" ++ g ++ post)%string /\
                   (post = "" \/ exists p, post = String "&" p)).
  { intros H. destruct (IH H) as [H1 [H2 [pre [post [E Hpost]]]]].
    split; [exact H1|]. split; [exact H2|].
    exists (String c pre), post. split; [simpl; now rewrite E | exact Hpost]. }
  destruct (String.prefix "station=" (String c rest)) eqn:Hp; [|exact Hrec].
  apply prefix_rest in Hp. change (String.length "station=") with 8 in Hp.
  set (t := String.substring 8 (String.length (String c rest) - 8) (String c rest)) in *.
  destruct (until_amp_spec t) as [post [Et [Hpost Hm]]].
  destruct (until_amp t) as [|a u] eqn:Eu; [exact Hrec|].
  intros H. injection H as <-. split; [discriminate|]. split; [exact Hm|].
  exists "", post. split; [|exact Hpost].
  rewrite Hp at 1. now rewrite Et at 1.
Qed.

(** X5. What [search_station] finds is a station identifier of the link:
    it is not empty, holds no ['&'], follows an occurrence of [station=] in
    the link and ends where the link ends or the next ['&'] stands. *)
Theorem search_station_sound (href g : string) :
  search_station href = Some g ->
  g <> "" /\ mentions "&" g = false /\
  exists pre post,
    href = (pre ++ "station=" ++ g ++ post)%string /\
    (post = "" \/ exists p, post = String "&" p).
Proof. apply search_station_inv. Qed.

(** X6. [search_station] finds an identifier exactly in the links that hold
    [station=] followed by a character other than ['&']. *)
Theorem search_station_complete (href : string) :
  (exists g, search_station href = Some g) <->
  (exists pre c post, href = (pre ++ "station=" ++ String c post)%string /\ c <> "&"%char).
Proof.
  split.
  - intros [g H]. destruct (search_station_inv _ _ H) as [Hne [Hm [pre [post [E _]]]]].
    destruct g as [|c g]; [contradiction|].
    exists pre, c, (g ++ post)%string. split; [exact E|].
    simpl in Hm. apply orb_false_iff in Hm. destruct Hm as [Hc _].
    now apply Ascii.eqb_neq in Hc.
  - intros [pre [c [post [-> Hc]]]]. induction pre as [|a pre IH].
    + change ("" ++ "station=" ++ String c post)%string
        with (String "s" ("tation=" ++ String c post)).
      rewrite search_station_eq.
      change (String "s" ("tation=" ++ String c post)) with ("station=" ++ String c post)%string.
      rewrite prefix_append.
      pose proof (substring_append "station=" (String c post)) as Hs.
      change (String.length "station=") with 8 in Hs. rewrite Hs.
      simpl. apply Ascii.eqb_neq in Hc. rewrite Hc. eauto.
    + change (String a pre ++ "station=" ++ String c post)%string
        with (String a (pre ++ "station=" ++ String c post)).
      rewrite search_station_eq.
      destruct (String.prefix _ _); [|exact IH].
      destruct (until_amp _); [exact IH | eauto].
Qed.

Lemma contains_eq (sub : string) (c : ascii) (rest : string) :
  contains sub (String c rest) = String.prefix sub (String c rest) || contains sub rest.
Proof. reflexivity. Qed.

(** X7. A link built around a station identifier gives the identifier
    back: when the identifier is not empty and holds no ['&'], is followed
    by the end of the link or by ['&'], and [station=] does not occur earlier
    in the link, [search_station] returns it. *)
Theorem search_station_of_link (pre station post : string) :
  station <> "" ->
  mentions "&" station = false ->
  (post = "" \/ exists p, post = String "&" p) ->
  contains "station=" (pre ++ "station") = false ->
  search_station (pre ++ "station=" ++ station ++ post) = Some station.
Proof.
  intros Hne Hm Hpost. induction pre as [|a pre IH]; intros Hpre.
  - change ("" ++ "station=" ++ station ++ post)%string
      with (String "s" ("tation=" ++ station ++ post)).
    rewrite search_station_eq.
    change (String "s" ("tation=" ++ station ++ post))
      with ("station=" ++ station ++ post)%string.
    rewrite prefix_append.
    pose proof (substring_append "station=" (station ++ post)) as Hs.
    change (String.length "station=") with 8 in Hs. rewrite Hs.
    rewrite (until_amp_app _ _ Hm Hpost).
    destruct station; [contradiction | reflexivity].
  - change (String a pre ++ "station")%string with (String a (pre ++ "station")) in Hpre.
    rewrite contains_eq in Hpre. apply orb_false_iff in Hpre. destruct Hpre as [Hp Hc].
    change (String a pre ++ "station=" ++ station ++ post)%string
      with (String a (pre ++ "station=" ++ station ++ post)).
    rewrite search_station_eq.
    assert (E : String a (pre ++ "station=" ++ station ++ post)
                = (String a (pre ++ "station") ++ "=" ++ station ++ post)%string).
    { simpl. now rewrite append_assoc. }
    rewrite E at 1. rewrite prefix_app_long, Hp; [now apply IH|].
    simpl. rewrite length_append. simpl. lia.
Qed.

Lemma search_station_sound_run :
  "05J01" <> "" /\ mentions "&" "05J01" = false /\
  exists pre post,
    hd "" (hrefs (Samples.station_row "05J01" "Berthoud Pass" "Grand"))
    = (pre ++ "station=" ++ "05J01" ++ post)%string /\
    (post = "" \/ exists p, post = String "&" p).
Proof.
  apply (search_station_sound
           (hd "" (hrefs (Samples.station_row "05J01" "Berthoud Pass" "Grand"))) "05J01").
  vm_compute. reflexivity.
Defined.

Lemma search_station_of_link_run :
  search_station "rgrpt?report=snowmonth_hist&state=CO&station=05J01&x=1" = Some "05J01".
Proof.
  apply (search_station_of_link "rgrpt?report=snowmonth_hist&state=CO&" "05J01" "&x=1").
  - discriminate.
  - reflexivity.
  - right. now exists "x=1".
  - vm_compute. reflexivity.
Defined.

(** ** White space *)

Lemma white_space_bytes : Forall (fun w => String.length w <> 0) white_space.
Proof. vm_compute. repeat constructor; discriminate. Qed.

Lemma prefix_app (w u v : string) :
  String.prefix w u = true -> String.prefix w (u ++ v) = true.
Proof.
  revert u. induction w as [|a w IH]; intros u H; [now destruct (u ++ v)%string|].
  destruct u as [|b u]; simpl in *; [discriminate H|].
  destruct (ascii_dec a b); [now apply IH | discriminate H].
Qed.

(** A text that starts with no white space has no prefix that does. *)
Lemma leading_space_prefix (u v : string) :
  leading_space (u ++ v) = 0 -> leading_space u = 0.
Proof.
  unfold leading_space. intros H.
  destruct (find (fun w => String.prefix w u) white_space) as [w|] eqn:E; [|reflexivity].
  apply find_some in E. destruct E as [Hin Hw].
  destruct (find (fun w => String.prefix w (u ++ v)) white_space) as [w'|] eqn:E'.
  - apply find_some in E'. destruct E' as [Hin' _].
    pose proof white_space_bytes as Hb. rewrite Forall_forall in Hb.
    now destruct (Hb w' Hin').
  - pose proof (find_none _ _ E' w Hin) as Hn. cbv beta in Hn.
    now rewrite (prefix_app _ _ v Hw) in Hn.
Qed.

Lemma lstrip_from_leading (s : string) (skip : nat) :
  leading_space (lstrip_from skip s) = 0.
Proof.
  revert skip. induction s as [|c s IH]; intros skip; [reflexivity|].
  cbn [lstrip_from]. destruct skip as [|k]; [|apply IH].
  destruct (leading_space (String c s)) eqn:E; [exact E | apply IH].
Qed.

Lemma lstrip_fixed (s : string) : leading_space s = 0 -> lstrip s = s.
Proof.
  intros H. unfold lstrip. destruct s as [|c s]; [reflexivity|].
  cbn [lstrip_from]. now rewrite H.
Qed.

Lemma rstrip_eq (c : ascii) (s : string) :
  rstrip (String c s) =
  if is_white (String c (rstrip s)) then EmptyString else String c (rstrip s).
Proof. reflexivity. Qed.

(** What [rstrip] returns is the text without an end of it. *)
Lemma rstrip_prefix (s : string) : exists v, s = (rstrip s ++ v)%string.
Proof.
  induction s as [|c s [v Hv]]; [now exists ""|]. rewrite rstrip_eq.
  destruct (is_white (String c (rstrip s))).
  - now exists (String c s).
  - exists v. simpl. now rewrite <- Hv.
Qed.

Lemma rstrip_idem (s : string) : rstrip (rstrip s) = rstrip s.
Proof.
  induction s as [|c s IH]; [reflexivity|]. rewrite rstrip_eq.
  destruct (is_white (String c (rstrip s))) eqn:E; [reflexivity|].
  now rewrite rstrip_eq, IH, E.
Qed.

(** [strip] leaves a stripped text as it is. *)
Lemma strip_idem (s : string) : strip (strip s) = strip s.
Proof.
  unfold strip. pose proof (lstrip_from_leading s 0) as H. fold (lstrip s) in H.
  destruct (rstrip_prefix (lstrip s)) as [v Hv]. rewrite Hv in H.
  apply leading_space_prefix in H. rewrite (lstrip_fixed _ H). apply rstrip_idem.
Qed.

(** ** More on the directory *)

Lemma cell_text_ok (tds : list string) (i : nat) (x : string) :
  cell_text tds i = Ok x -> strip x = x.
Proof.
  unfold cell_text. destruct (nth_error tds i); [|discriminate].
  intros H. injection H as <-. apply strip_idem.
Qed.

Lemma cell_text_raise (tds : list string) (i : nat) (e : exn) :
  cell_text tds i = Raise e -> e = IndexError.
Proof.
  unfold cell_text. destruct (nth_error tds i); [discriminate|].
  intros H. now injection H as <-.
Qed.

Lemma bind_raise {A B} (m : M A) (k : A -> M B) (st st' : state) (e : exn) :
  bind m k st = (Raise e, st') ->
  m st = (Raise e, st') \/ exists a st1, m st = (Ok a, st1) /\ k a st1 = (Raise e, st').
Proof.
  unfold bind. destruct (m st) as [[a|e0] st1]; [right; eauto|].
  intros H. injection H as -> ->. now left.
Qed.

(** A loop raises what a turn of its body raises. *)
Lemma for_each_raise {A B} (P : exn -> Prop) (body : B -> A -> M B) (l : list A) :
  (forall acc x st e st', body acc x st = (Raise e, st') -> P e) ->
  forall acc st e st', for_each body l acc st = (Raise e, st') -> P e.
Proof.
  intros Hbody. induction l as [|x l IH]; intros acc st e st' H; simpl in H.
  - discriminate H.
  - apply bind_raise in H. destruct H as [H|[acc1 [st1 [_ H]]]].
    + eapply Hbody. exact H.
    + eapply IH. exact H.
Qed.

Section Directory.
Variable http_get : string -> http_outcome.
Variable html_table : string -> option (list table_row).

(** The station records the loop builds. *)
Lemma scan_link_record (tds : list string) (sites sites' : list (list (string * string)))
  (href : string) (st st' : state) (P : list (string * string) -> Prop) :
  (forall station site_name latitude longitude county,
     station <> "" -> mentions "&" station = false ->
     strip site_name = site_name -> strip latitude = latitude ->
     strip longitude = longitude -> strip county = county ->
     P [("station", station); ("site_name", site_name); ("latitude", latitude);
        ("longitude", longitude); ("county", county)]) ->
  Forall P sites ->
  scan_link tds sites href st = (Ok sites', st') ->
  Forall P sites'.
Proof.
  intros HP Hs H. unfold scan_link in H.
  destruct (contains "station" href && contains "snowmonth_hist" href).
  - apply bind_ok in H. destruct H as [[] [st1 [_ H]]].
    destruct (search_station href) as [station|] eqn:Hst.
    + apply search_station_inv in Hst. destruct Hst as [Hne [Hamp _]].
      apply bind_ok in H. destruct H as [a [s1 [H1 H]]]. apply lift_ok in H1. destruct H1 as [H1 _].
      apply bind_ok in H. destruct H as [b [s2 [H2 H]]]. apply lift_ok in H2. destruct H2 as [H2 _].
      apply bind_ok in H. destruct H as [c [s3 [H3 H]]]. apply lift_ok in H3. destruct H3 as [H3 _].
      apply bind_ok in H. destruct H as [d [s4 [H4 H]]]. apply lift_ok in H4. destruct H4 as [H4 _].
      injection H as <- _. apply Forall_app. split; [exact Hs|].
      constructor; [|constructor].
      apply HP; eauto using cell_text_ok.
    + injection H as <- _. exact Hs.
  - injection H as <- _. exact Hs.
Qed.

Lemma scan_link_raise (tds : list string) (sites : list (list (string * string)))
  (href : string) (st st' : state) (e : exn) :
  scan_link tds sites href st = (Raise e, st') -> e = IndexError.
Proof.
  intros H. unfold scan_link in H.
  destruct (contains "station" href && contains "snowmonth_hist" href); [|discriminate H].
  apply bind_raise in H. destruct H as [H|[[] [s0 [_ H]]]]; [discriminate H|].
  destruct (search_station href); [|discriminate H].
  repeat (apply bind_raise in H;
          destruct H as [H|[? [? [_ H]]]];
          [unfold lift in H; injection H as H _; now apply cell_text_raise in H|]).
  discriminate H.
Qed.

(** X4. The table [get_colorado_sites] returns has the five columns
    station, site_name, latitude, longitude, county (no column at all when
    it has no row), and every row is made of five texts: a station
    identifier that is not empty and holds no ['&'], and a name, latitude,
    longitude and county without white space around them. *)
Theorem get_colorado_sites_rows (st st' : state) (sites_df : DataFrame) :
  get_colorado_sites http_get html_table st = (Ok sites_df, st') ->
  Forall directory_row (rows sites_df) /\
  columns sites_df = (match rows sites_df with [] => [] | _ :: _ => site_keys end).
Proof.
  intros H. split; [|exact (get_colorado_sites_columns _ _ _ _ _ H)].
  unfold get_colorado_sites in H.
  apply bind_ok in H. destruct H as [response [st1 [_ H]]].
  apply bind_ok in H. destruct H as [sites [st2 [Hsites H]]].
  injection H as <- _.
  set (P := fun d : list (string * string) =>
              map fst d = site_keys /\
              directory_row (map (fun kv => Str (snd kv)) d)).
  assert (Hrec : Forall P sites).
  { destruct (html_table (text response)) as [trs|].
    - revert Hsites. apply for_each_invariant; [|constructor].
      intros acc row s acc' s' Hacc. apply for_each_invariant; [|exact Hacc].
      intros acc0 href s0 acc0' s0' Hacc0. apply scan_link_record; [|exact Hacc0].
      intros station a b c d H1 H2 H3 H4 H5 H6. split; [reflexivity|].
      exists station, a, b, c, d. repeat split; assumption.
    - injection Hsites as <- _. constructor. }
  assert (Hkeys : Forall (fun d => map fst d = site_keys) sites)
    by (eapply Forall_impl; [|exact Hrec]; now intros d [Hd _]).
  pose proof (records_columns _ Hkeys) as Hcols.
  unfold DataFrame_of_records in *. cbn [columns rows] in *.
  apply Forall_map. destruct sites as [|d0 sites]; [constructor|].
  rewrite Hcols. eapply Forall_impl; [|exact Hrec].
  intros d [Hd Hrow]. destruct Hrow as [s0 [a [b [c [e [Hrow Hprops]]]]]].
  exists s0, a, b, c, e. split; [|exact Hprops].
  destruct d as [|[k0 v0] [|[k1 v1] [|[k2 v2] [|[k3 v3] [|[k4 v4] [|? ?]]]]]];
    try discriminate Hd.
  injection Hd as -> -> -> -> ->. exact Hrow.
Qed.

(** X1. A failure of the request for the directory is fatal:
    [get_colorado_sites] raises it without printing anything, and
    [download_all_colorado_sites] raises it after its first line of output,
    whatever the reader and the rest of the service do. *)
Theorem get_colorado_sites_request_fails
  (read_csv : string -> result DataFrame) (save_path : string) (delay : Z)
  (e : request_error) (st : state) :
  http_get sites_url = Fails e ->
  get_colorado_sites http_get html_table st = (Raise (RequestException e), st) /\
  download_all_colorado_sites http_get html_table read_csv save_path delay st =
  (Raise (RequestException e), snd (print Out_fetching st)).
Proof.
  intros H. unfold download_all_colorado_sites, get_colorado_sites, bind, lift, requests_get.
  rewrite H. split; reflexivity.
Qed.

(** X2. The status of the directory response is never looked at: when the
    page, whatever its status, has no table, or a table of at most its
    header row, the run reports that no data was downloaded and returns
    [None]; it does not raise. *)
Theorem download_all_colorado_sites_no_table
  (read_csv : string -> result DataFrame) (save_path : string) (delay : Z)
  (response : response) (st : state) :
  http_get sites_url = Responds response ->
  (html_table (text response) = None \/
   exists trs, html_table (text response) = Some trs /\ List.length trs <= 1) ->
  download_all_colorado_sites http_get html_table read_csv save_path delay st =
  (Ok None,
   {| stdout := stdout st ++ [Out_fetching] ++ [Out_found 0] ++ [Out_no_data_downloaded];
      files := files st; slept := slept st |}).
Proof.
  intros H Htable.
  assert (Hsites : forall s, get_colorado_sites http_get html_table s
                             = (Ok {| columns := []; rows := [] |}, s)).
  { intros s. unfold get_colorado_sites, bind, lift, requests_get. rewrite H.
    destruct Htable as [->|[trs [-> Hlen]]]; [reflexivity|].
    destruct trs as [|h [|h' trs]]; [reflexivity | reflexivity | simpl in Hlen; lia]. }
  unfold download_all_colorado_sites, bind at 1. cbn [print].
  unfold bind at 1. rewrite Hsites. cbn. rewrite <- !app_assoc. reflexivity.
Qed.

End Directory.

(** A row whose name is padded with no-break spaces, an em space and a
    line feed: the name comes out bare. *)
Lemma get_colorado_sites_rows_run :
  exists sites_df st',
    get_colorado_sites (Samples.answering 200 "page")
      (fun _ => Some [Samples.header_row;
                      {| hrefs := ["rgrpt?report=snowmonth_hist&station=05J01&x=1"];
                         cells := [""; (bytes [194; 160; 32] ++ "Berthoud Pass"
                                        ++ bytes [226; 128; 131; 10; 194; 160])%string;
                                   "CO"; "SNOW"; "1936"; " 39.80"; "-105.78 ";
                                   "10000"; "HUC"; (bytes [9] ++ "Grand")%string] |}])
      initial = (Ok sites_df, st') /\
    rows sites_df = [[Str "05J01"; Str "Berthoud Pass"; Str "39.80"; Str "-105.78";
                      Str "Grand"]] /\
    Forall directory_row (rows sites_df).
Proof.
  match goal with
  | |- exists sites_df st', ?run = _ /\ _ =>
      destruct run as [[sites_df|e] st'] eqn:H; [|vm_compute in H; discriminate H]
  end.
  exists sites_df, st'. split; [reflexivity|].
  split; [|exact (proj1 (get_colorado_sites_rows _ _ _ _ _ H))].
  vm_compute in H. injection H as <- _. reflexivity.
Defined.

Lemma get_colorado_sites_request_fails_run :
  get_colorado_sites (Samples.failing ConnectionError) Samples.html_table initial
  = (Raise (RequestException ConnectionError), initial) /\
  download_all_colorado_sites (Samples.failing ConnectionError) Samples.html_table
    Samples.read_csv "colorado_snow_data.csv" 1 initial
  = (Raise (RequestException ConnectionError),
     {| stdout := [Out_fetching]; files := []; slept := [] |}).
Proof.
  apply (get_colorado_sites_request_fails (Samples.failing ConnectionError)
           Samples.html_table Samples.read_csv "colorado_snow_data.csv" 1
           ConnectionError initial).
  reflexivity.
Defined.

Lemma download_all_colorado_sites_no_table_run :
  download_all_colorado_sites (Samples.answering 500 "Internal Server Error")
    (fun _ => None) Samples.read_csv "colorado_snow_data.csv" 1 initial
  = (Ok None,
     {| stdout := [Out_fetching; Out_found 0; Out_no_data_downloaded];
        files := []; slept := [] |}).
Proof.
  apply (download_all_colorado_sites_no_table
           (Samples.answering 500 "Internal Server Error") (fun _ => None)
           Samples.read_csv "colorado_snow_data.csv" 1
           {| status_code := 500; text := "Internal Server Error" |} initial).
  - reflexivity.
  - now left.
Defined.

(** ** More on the downloader *)

(** X8. [download_site_data] never raises and only prints.  It returns
    [None] exactly when the request fails or the response has a status from
    400 to 599; any other response, whatever its status, gives its text and
    prints nothing. *)
Theorem download_site_data_never_raises
  (http_get : string -> http_outcome) (site_num : cell) (st : state) :
  exists r st',
    download_site_data http_get site_num st = (Ok r, st') /\
    files st' = files st /\ slept st' = slept st /\
    (r = None <->
     (exists e, http_get (report_url site_num) = Fails e) \/
     (exists resp, http_get (report_url site_num) = Responds resp /\
                   (400 <= status_code resp < 600)%Z)) /\
    (forall body, r = Some body ->
       st' = st /\
       exists resp, http_get (report_url site_num) = Responds resp /\ text resp = body).
Proof.
  unfold download_site_data, try_except, bind, lift, requests_get, raise_for_status.
  destruct (http_get (report_url site_num)) as [e|resp] eqn:H.
  - eexists. eexists. split; [reflexivity|]. repeat split; try discriminate.
    left. now exists e.
  - destruct ((400 <=? status_code resp)%Z && (status_code resp <? 600)%Z) eqn:E.
    + eexists. eexists. split; [reflexivity|]. repeat split; try discriminate.
      right. exists resp. split; [reflexivity|].
      apply andb_true_iff in E. destruct E as [E1 E2].
      apply Z.leb_le in E1. apply Z.ltb_lt in E2. lia.
    + eexists. eexists. split; [reflexivity|]. repeat split; try discriminate.
      * intros [[e He]|[resp' [He [H1 H2]]]]; [discriminate He|].
        injection He as <-. apply Z.leb_le in H1. apply Z.ltb_lt in H2.
        rewrite H1, H2 in E. discriminate E.
      * injection H0 as <-. now exists resp.
Qed.

(** X9. Stations whose identifiers are written differently are requested
    from different URLs. *)
Theorem report_url_injective (a b : cell) :
  report_url a = report_url b -> format a = format b.
Proof.
  unfold report_url. intros H.
  apply append_inv_head in H. now apply append_inv_tail in H.
Qed.

(** Two stations get two URLs; an identifier given as the number 5 and one
    given as the text 5 are written alike and get the same URL. *)
Lemma report_url_injective_run :
  report_url (Str "05J01") <> report_url (Str "06J02") /\
  format (Int 5) = format (Str "5").
Proof.
  split.
  - intros H. apply (report_url_injective (Str "05J01") (Str "06J02")) in H.
    discriminate H.
  - apply (report_url_injective (Int 5) (Str "5")). vm_compute. reflexivity.
Defined.

(** ** More on the wide-format parser *)

Lemma find_data_start_app (pre lines : list string) (i : nat) :
  Forall (fun l => startswith l "Water Year," = false) pre ->
  find_data_start (pre ++ lines) i = find_data_start lines (i + List.length pre).
Proof.
  intros H. revert i. induction H as [|l pre Hl _ IH]; intros i; simpl.
  - now rewrite Nat.add_0_r.
  - rewrite Hl, IH. f_equal. lia.
Qed.

Lemma data_block_cons (l : string) (lines : list string) (n : nat) :
  data_block (l :: lines) (S n) = data_block lines n.
Proof. reflexivity. Qed.

(** The preamble and the line below the marker line are not in the text
    handed to the reader. *)
Lemma data_block_skip (pre : list string) (m d : string) (rest : list string) :
  data_block (pre ++ m :: d :: rest) (List.length pre) = join newline (m :: rest).
Proof.
  induction pre as [|l pre IH]; [reflexivity|].
  cbn [app List.length]. now rewrite data_block_cons.
Qed.

Section ParserCases.
Variable read_csv : string -> result DataFrame.

(** What [parse_snow_data] does once the marker line is found. *)
Lemma parse_with_marker (raw : string) (station : cell) (data_start : nat) :
  find_data_start (split newline raw) 0 = Some data_start ->
  parse_snow_data read_csv (Some raw) station =
  match read_csv (data_block (split newline raw) data_start) with
  | Raise e => Raise e
  | Ok df0 =>
      if Nat.eqb (List.length (columns df0)) 19
      then Ok (Some {| columns := new_columns ++ ["station"];
                       rows := filter (fun row => notna (at_ 0 row))
                                      (map (fun row => row ++ [station]) (rows df0)) |})
      else Raise (ValueError_length_mismatch (List.length (columns df0)) 19)
  end.
Proof.
  intros Hstart. unfold parse_snow_data.
  destruct raw as [|c raw]; [discriminate Hstart|].
  rewrite Hstart. destruct (read_csv _) as [df0|e]; [|reflexivity].
  cbn [rbind]. unfold set_columns. change (List.length new_columns) with 19.
  destruct (Nat.eqb (List.length (columns df0)) 19); [|reflexivity].
  cbn [rbind]. rewrite setitem_scalar_new by reflexivity.
  unfold getitem. cbn [columns rows].
  change (get_loc "water_year" (new_columns ++ ["station"])) with (Ok [0]).
  cbn [rbind hd]. unfold getitem_mask. cbn [columns rows].
  rewrite (map_map (at_ 0) notna).
  now rewrite (mask_filter (fun row => notna (at_ 0 row))).
Qed.

(** X10. [parse_snow_data] returns [None] exactly when its input is falsy
    or no line of it starts with the marker: a report that has the marker
    line gives a table, possibly without rows, or an exception. *)
Theorem parse_snow_data_none_iff (raw_data : option string) (station : cell) :
  parse_snow_data read_csv raw_data station = Ok None <->
  (truthy raw_data = false \/
   exists raw, raw_data = Some raw /\ find_data_start (split newline raw) 0 = None).
Proof.
  split.
  - intros H. destruct raw_data as [raw|]; [|now left].
    destruct (find_data_start (split newline raw) 0) as [ds|] eqn:Hstart.
    + rewrite (parse_with_marker _ _ _ Hstart) in H.
      destruct (read_csv _) as [df0|e]; [|discriminate H].
      destruct (Nat.eqb _ 19); discriminate H.
    + right. now exists raw.
  - intros [H|[raw [-> H]]].
    + destruct raw_data as [[|c raw]|]; [reflexivity | discriminate H | reflexivity].
    + unfold parse_snow_data. destruct raw; [reflexivity | now rewrite H].
Qed.

(** X11. [parse_snow_data] raises in two cases only, both after the marker
    line was found: the CSV reader raises, and its exception goes through,
    or the table read does not have 19 columns. *)
Theorem parse_snow_data_raise_iff (raw_data : option string) (station : cell) (e : exn) :
  parse_snow_data read_csv raw_data station = Raise e <->
  exists raw data_start,
    raw_data = Some raw /\
    find_data_start (split newline raw) 0 = Some data_start /\
    (read_csv (data_block (split newline raw) data_start) = Raise e \/
     exists df0,
       read_csv (data_block (split newline raw) data_start) = Ok df0 /\
       List.length (columns df0) <> 19 /\
       e = ValueError_length_mismatch (List.length (columns df0)) 19).
Proof.
  split.
  - intros H. destruct raw_data as [raw|]; [|discriminate H].
    destruct (find_data_start (split newline raw) 0) as [ds|] eqn:Hstart.
    + exists raw, ds. split; [reflexivity|]. split; [exact Hstart|].
      rewrite (parse_with_marker _ _ _ Hstart) in H.
      destruct (read_csv _) as [df0|e0]; [|left; now injection H as ->].
      right. exists df0. split; [reflexivity|].
      destruct (Nat.eqb_spec (List.length (columns df0)) 19); [discriminate H|].
      split; [assumption|]. now injection H as <-.
    + unfold parse_snow_data in H. destruct raw; [discriminate H|].
      rewrite Hstart in H. discriminate H.
  - intros [raw [ds [-> [Hstart H]]]]. rewrite (parse_with_marker _ _ _ Hstart).
    destruct H as [->|[df0 [-> [Hlen ->]]]]; [reflexivity|].
    now destruct (Nat.eqb_spec (List.length (columns df0)) 19).
Qed.

(** X12. A table that [parse_snow_data] returns always has the 20 labels
    [water_year], the 18 month labels and [station], whatever the CSV reader
    called the columns; it was read as a table of 19 columns and has no more
    rows than were read. *)
Theorem parse_snow_data_some_shape
  (raw_data : option string) (station : cell) (df : DataFrame) :
  parse_snow_data read_csv raw_data station = Ok (Some df) ->
  columns df = new_columns ++ ["station"] /\
  exists raw data_start df0,
    raw_data = Some raw /\
    find_data_start (split newline raw) 0 = Some data_start /\
    read_csv (data_block (split newline raw) data_start) = Ok df0 /\
    List.length (columns df0) = 19 /\
    rows df = filter (fun row => notna (at_ 0 row))
                     (map (fun row => row ++ [station]) (rows df0)) /\
    len df <= len df0.
Proof.
  intros H. destruct raw_data as [raw|]; [|discriminate H].
  destruct (find_data_start (split newline raw) 0) as [ds|] eqn:Hstart.
  - rewrite (parse_with_marker _ _ _ Hstart) in H.
    destruct (read_csv _) as [df0|e0] eqn:Hcsv; [|discriminate H].
    destruct (Nat.eqb_spec (List.length (columns df0)) 19) as [Hlen|]; [|discriminate H].
    injection H as <-. split; [reflexivity|].
    exists raw, ds, df0. repeat split; try assumption.
    unfold len. cbn [rows].
    etransitivity; [apply filter_length_le|]. now rewrite length_map.
  - unfold parse_snow_data in H. destruct raw; [discriminate H|].
    rewrite Hstart in H. discriminate H.
Qed.

(** X13. The lines above the marker line and the line right below it do
    not matter: a report parses like the report made of its marker line, any
    other description line and its data lines. *)
Theorem parse_snow_data_skips
  (pre : list string) (m d d' : string) (rest : list string) (station : cell) :
  Forall (fun l => mentions newline l = false /\ startswith l "Water Year," = false) pre ->
  startswith m "Water Year," = true ->
  Forall (fun l => mentions newline l = false) (m :: d :: d' :: rest) ->
  parse_snow_data read_csv (Some (join newline (pre ++ m :: d :: rest))) station =
  parse_snow_data read_csv (Some (join newline (m :: d' :: rest))) station.
Proof.
  intros Hpre Hm Hlines.
  inversion Hlines as [|? ? Nm Hl1]; subst. inversion Hl1 as [|? ? Nd Hl2]; subst.
  inversion Hl2 as [|? ? Nd' Nrest]; subst.
  assert (S1 : split newline (join newline (pre ++ m :: d :: rest)) = pre ++ m :: d :: rest).
  { apply split_join; [now destruct pre|].
    apply Forall_app. split; [|now repeat constructor].
    eapply Forall_impl; [|exact Hpre]. now intros l [Hl _]. }
  assert (S2 : split newline (join newline (m :: d' :: rest)) = m :: d' :: rest).
  { apply split_join; [discriminate | now repeat constructor]. }
  assert (F1 : find_data_start (pre ++ m :: d :: rest) 0 = Some (List.length pre)).
  { rewrite find_data_start_app.
    - cbn [find_data_start]. now rewrite Hm.
    - eapply Forall_impl; [|exact Hpre]. now intros l [_ Hl]. }
  assert (F2 : find_data_start (m :: d' :: rest) 0 = Some 0).
  { cbn [find_data_start]. now rewrite Hm. }
  rewrite (parse_with_marker _ _ (List.length pre)) by now rewrite S1.
  rewrite (parse_with_marker _ _ 0) by now rewrite S2.
  rewrite S1, S2, data_block_skip. reflexivity.
Qed.

End ParserCases.

Lemma parse_snow_data_some_shape_run :
  exists df,
    parse_snow_data Samples.read_csv (Some Samples.report) (Str "05J01") = Ok (Some df) /\
    columns df = new_columns ++ ["station"] /\
    len df = 2.
Proof.
  destruct (parse_snow_data Samples.read_csv (Some Samples.report) (Str "05J01"))
    as [[df|]|e] eqn:H; try (vm_compute in H; discriminate H).
  exists df. split; [reflexivity|].
  split; [exact (proj1 (parse_snow_data_some_shape _ _ _ _ H))|].
  vm_compute in H. injection H as <-. reflexivity.
Defined.

Lemma parse_snow_data_skips_run :
  parse_snow_data Samples.read_csv (Some Samples.report) (Str "05J01") =
  parse_snow_data Samples.read_csv
    (Some (join newline
             [Samples.header_line; "";
              "1936,Jan 30,32,10.5,,,,Mar 01,40,12.0,Apr 02,44,14.1,,,,,,";
              "1937,,,,Feb 01,30,9.0,,,,Mar 30,51,17.3,,,,,,";
              ",,,,,,,,,,,,,,,,,,"]))
    (Str "05J01").
Proof.
  apply (parse_snow_data_skips Samples.read_csv
           ["# Snow course report"; "# station 05J01"]
           Samples.header_line Samples.describe_line ""
           ["1936,Jan 30,32,10.5,,,,Mar 01,40,12.0,Apr 02,44,14.1,,,,,,";
            "1937,,,,Feb 01,30,9.0,,,,Mar 30,51,17.3,,,,,,";
            ",,,,,,,,,,,,,,,,,,"]
           (Str "05J01")).
  - repeat constructor.
  - reflexivity.
  - repeat constructor.
Defined.

(** ** More on the pivot *)

Lemma get_locs_inv (cols keys : list string) (locs : list (list nat)) :
  rmap (fun k => get_loc k cols) keys = Ok locs ->
  Forall2 (fun k loc => get_indexer k cols 0 = loc /\ loc <> []) keys locs.
Proof.
  revert locs. induction keys as [|k keys IH]; intros locs H; cbn [rmap] in H.
  - injection H as <-. constructor.
  - apply rbind_ok in H. destruct H as [loc [Hloc H]].
    apply rbind_ok in H. destruct H as [locs' [Hlocs H]]. injection H as <-.
    constructor; [|now apply IH].
    unfold get_loc in Hloc. destruct (get_indexer k cols 0) as [|i l]; [discriminate Hloc|].
    injection Hloc as <-. split; [reflexivity | discriminate].
Qed.

Lemma concat_length_ge (locs : list (list nat)) :
  Forall (fun l => l <> []) locs -> List.length locs <= List.length (List.concat locs).
Proof.
  induction 1 as [|l locs Hl _ IH]; simpl; [lia|].
  rewrite length_app. destruct l; [contradiction | simpl; lia].
Qed.

(** As many positions as labels, none of the labels missing: each label
    names one column. *)
Lemma concat_singletons_inv (locs : list (list nat)) :
  Forall (fun l => l <> []) locs ->
  List.length (List.concat locs) = List.length locs ->
  Forall (fun l => exists i, l = [i]) locs.
Proof.
  induction 1 as [|l locs Hl Hlocs IH]; simpl; intros Hlen; [constructor|].
  rewrite length_app in Hlen. pose proof (concat_length_ge _ Hlocs) as Hge.
  destruct l as [|i [|j l]]; [contradiction | | simpl in Hlen; lia].
  constructor; [now exists i|]. apply IH. simpl in Hlen. lia.
Qed.

Lemma take_fields (cols keys : list string) (locs : list (list nat)) (r : list cell) :
  Forall2 (fun k loc => get_indexer k cols 0 = loc /\ loc <> []) keys locs ->
  Forall (fun l => exists i, l = [i]) locs ->
  take (List.concat locs) r = map (fun k => field cols k r) keys.
Proof.
  unfold take.
  induction 1 as [|k loc keys locs [Hk _] _ IH]; intros Hs; [reflexivity|].
  destruct (Forall_inv Hs) as [i Hi]. pose proof (Forall_inv_tail Hs) as Hs'.
  subst loc. cbn [List.concat map]. rewrite Hi at 1. cbn [map app].
  rewrite (IH Hs'). unfold field. now rewrite Hi.
Qed.

Lemma unique_labels (cols keys : list string) (locs : list (list nat)) :
  Forall2 (fun k loc => get_indexer k cols 0 = loc /\ loc <> []) keys locs ->
  Forall (fun l => exists i, l = [i]) locs ->
  Forall (fun k => exists i, get_indexer k cols 0 = [i]) keys.
Proof.
  induction 1 as [|k loc keys locs [Hk _] _ IH]; intros Hs; [constructor|].
  destruct (Forall_inv Hs) as [i Hi]. pose proof (Forall_inv_tail Hs) as Hs'.
  subst loc. constructor; [now exists i | now apply IH].
Qed.

(** One turn of the loop over the months, in terms of the wide table. *)
Lemma month_frame_rows (df : DataFrame) (acc acc' : list DataFrame) (month : string)
  (st st' : state) :
  month_frame df acc month st = (Ok acc', st') ->
  Forall (fun k => exists i, get_indexer k (columns df) 0 = [i]) (id_cols ++ month_labels month)
  /\ acc' = acc ++ [{| columns := month_columns;
                       rows := month_table_rows (columns df) month (rows df) |}].
Proof.
  intros H. unfold month_frame in H.
  apply bind_ok in H. destruct H as [[] [s1 [_ H]]].
  apply bind_ok in H. destruct H as [[] [s2 [_ H]]].
  apply bind_ok in H. destruct H as [t1 [s3 [H1 H]]]. apply lift_ok in H1. destruct H1 as [H1 _].
  apply bind_ok in H. destruct H as [t2 [s4 [H2 H]]]. apply lift_ok in H2. destruct H2 as [H2 _].
  apply bind_ok in H. destruct H as [t3 [s5 [H3 H]]]. apply lift_ok in H3. destruct H3 as [H3 _].
  injection H as <- _.
  unfold getitem_list in H1. apply rbind_ok in H1. destruct H1 as [locs [Hlocs H1]].
  injection H1 as <-.
  unfold set_columns in H2. cbn [columns rows] in H2.
  rewrite length_map in H2. change (List.length (id_cols ++ measure_cols)) with 9 in H2.
  destruct (Nat.eqb_spec (List.length (List.concat locs)) 9) as [Hlen|]; [|discriminate H2].
  injection H2 as <-.
  rewrite setitem_scalar_new in H3 by reflexivity. cbn [columns rows] in H3.
  unfold dropna_all in H3. cbn [columns rows] in H3.
  change (rmap (fun k => get_loc k ((id_cols ++ measure_cols) ++ ["month"])) measure_cols)
    with (Ok (A := list (list nat)) [[6]; [7]; [8]]) in H3.
  cbn [rbind List.concat app] in H3. injection H3 as <-.
  apply get_locs_inv in Hlocs.
  assert (Hsingle : Forall (fun l => exists i, l = [i]) locs).
  { apply concat_singletons_inv.
    - clear Hlen. induction Hlocs as [|? ? ? ? [_ Hne] _ IH]; constructor; assumption.
    - rewrite Hlen. pose proof (Forall2_length Hlocs) as HL.
      cbn in HL. now rewrite <- HL. }
  split; [exact (unique_labels _ _ _ Hlocs Hsingle)|].
  do 2 f_equal. unfold month_table_rows, month_columns. do 2 f_equal.
  rewrite map_map. apply map_ext. intros r.
  now rewrite (take_fields _ _ _ r Hlocs Hsingle).
Qed.

Lemma months_loop_rows (df : DataFrame) (ms : list string) :
  forall (acc r : list DataFrame) (st st' : state),
    for_each (month_frame df) ms acc st = (Ok r, st') ->
    Forall (fun m => Forall (fun k => exists i, get_indexer k (columns df) 0 = [i])
                            (id_cols ++ month_labels m)) ms
    /\ r = acc ++ map (fun m => {| columns := month_columns;
                                  rows := month_table_rows (columns df) m (rows df) |}) ms.
Proof.
  induction ms as [|m ms IH]; intros acc r st st' H; simpl in H.
  - injection H as <- _. split; [constructor | now rewrite app_nil_r].
  - apply bind_ok in H. destruct H as [acc1 [st1 [H1 H2]]].
    apply month_frame_rows in H1. destruct H1 as [Hm ->].
    apply IH in H2. destruct H2 as [Hms ->].
    split; [now constructor | now rewrite <- app_assoc].
Qed.

(** The long row of a per-month row, and when a per-month row is kept. *)
Lemma month_row_long (cols : list string) (month : string) (r : list cell) :
  let row := map (fun label => field cols label r) (id_cols ++ month_labels month)
             ++ [Str month] in
  take [0; 1; 2; 3; 4; 5; 9; 6; 7; 8] row = long_row cols month r /\
  negb (all_na [6; 7; 8] row) = measured cols month r.
Proof.
  cbv zeta. split; [reflexivity|].
  unfold measured, all_na. cbn.
  destruct (notna (field cols (month ++ "_date") r)),
           (notna (field cols (month ++ "_snow_depth_in") r)),
           (notna (field cols (month ++ "_swe_in") r)); reflexivity.
Qed.

Lemma month_rows_long (cols : list string) (month : string) (rs : list (list cell)) :
  map (take [0; 1; 2; 3; 4; 5; 9; 6; 7; 8]) (month_table_rows cols month rs) =
  map (long_row cols month) (filter (measured cols month) rs).
Proof.
  unfold month_table_rows. rewrite filter_map_comm, map_map.
  erewrite filter_ext; [apply map_ext|].
  - intros r. apply (month_row_long cols month r).
  - intros r. apply (month_row_long cols month r).
Qed.

(** The rows of the long table, from the rows of the wide table. *)
Lemma pivot_rows_perm (df long : DataFrame) (st st' : state) :
  pivot_to_long_format df st = (Ok long, st') ->
  Permutation (rows long)
    (flat_map (fun month => map (long_row (columns df) month)
                                (filter (measured (columns df) month) (rows df)))
              months).
Proof.
  intros H. apply pivot_inv in H. destruct H as [ts [st1 [Hloop [Hts ->]]]].
  cbn [rows]. rewrite (long_rows_perm _ _ Hts).
  apply months_loop_rows in Hloop. destruct Hloop as [_ ->]. cbn [app].
  clear Hts. induction months as [|m ms IH]; [constructor|].
  cbn [map flat_map rows]. rewrite map_app, month_rows_long.
  now apply Permutation_app_head.
Qed.

(** X16. The long table holds, in some order, one row for every row of the
    wide table and every month for which that row has a collection date, a
    snow depth or an SWE: the row's six identifier cells, the month and the
    three cells of that month, each looked up by its label. *)
Theorem pivot_to_long_format_rows (df long : DataFrame) (st st' : state) :
  pivot_to_long_format df st = (Ok long, st') ->
  Permutation (rows long)
    (flat_map (fun month => map (long_row (columns df) month)
                                (filter (measured (columns df) month) (rows df)))
              months).
Proof. apply pivot_rows_perm. Qed.

(** X17. The long table has as many rows as there are pairs of a row of
    the wide table and a month measured in it: at most six rows per row of
    the wide table, and none for a wide table without rows. *)
Theorem pivot_to_long_format_count (df long : DataFrame) (st st' : state) :
  pivot_to_long_format df st = (Ok long, st') ->
  len long = list_sum (map (fun month =>
                              List.length (filter (measured (columns df) month) (rows df)))
                           months) /\
  len long <= 6 * len df /\
  (rows df = [] -> rows long = []).
Proof.
  intros H. apply pivot_rows_perm in H.
  assert (Hlen : len long = list_sum (map (fun month =>
                   List.length (filter (measured (columns df) month) (rows df))) months)).
  { unfold len. rewrite (Permutation_length H). clear H.
    induction months as [|m ms IH]; [reflexivity|].
    cbn [flat_map map list_sum]. now rewrite length_app, length_map, IH. }
  split; [exact Hlen|]. split.
  - rewrite Hlen. unfold len, months, list_sum. cbn [map fold_right].
    pose proof (fun m => filter_length_le (measured (columns df) m) (rows df)) as Hle.
    pose proof (Hle "Jan"). pose proof (Hle "Feb"). pose proof (Hle "Mar").
    pose proof (Hle "Apr"). pose proof (Hle "May"). pose proof (Hle "Jun"). lia.
  - intros Hrows. rewrite Hrows in H. cbn in H.
    now apply Permutation_sym, Permutation_nil in H.
Qed.

(** X15. The pivot returns a table exactly for the wide tables: it raises
    as soon as one of the 24 labels it reads is not the label of exactly one
    column of its input. *)
Theorem pivot_to_long_format_domain (df : DataFrame) (st : state) :
  (exists long st', pivot_to_long_format df st = (Ok long, st')) <-> wide_table df.
Proof.
  split; [|apply pivot_total].
  intros [long [st' H]]. unfold pivot_to_long_format in H.
  apply bind_ok in H. destruct H as [ts [st1 [Hloop _]]].
  apply months_loop_rows in Hloop. destruct Hloop as [Hms _].
  unfold wide_table, wide_labels. rewrite Forall_forall in *. intros k Hk.
  apply in_app_or in Hk. destruct Hk as [Hk|Hk].
  - specialize (Hms "Jan" (or_introl eq_refl)). rewrite Forall_forall in Hms.
    apply Hms. apply in_or_app. now left.
  - apply in_flat_map in Hk. destruct Hk as [m [Hm Hk]].
    specialize (Hms m Hm). rewrite Forall_forall in Hms.
    apply Hms. apply in_or_app. now right.
Qed.

(** X14. The pivot cannot be run on what [parse_snow_data] returns: such a
    table has no [site_name], [county], [latitude] or [longitude] column,
    and the pivot raises [KeyError] on the first of them while building the
    table of January. *)
Theorem pivot_of_parsed_raises
  (read_csv : string -> result DataFrame) (raw_data : option string) (station : cell)
  (df : DataFrame) (st : state) :
  parse_snow_data read_csv raw_data station = Ok (Some df) ->
  fst (pivot_to_long_format df st) = Raise (KeyError "site_name").
Proof.
  intros H. destruct raw_data as [raw|]; [|discriminate H].
  destruct (find_data_start (split newline raw) 0) as [ds|] eqn:Hstart.
  - rewrite (parse_with_marker _ _ _ _ Hstart) in H.
    destruct (read_csv _) as [df0|e0]; [|discriminate H].
    destruct (Nat.eqb _ 19); [|discriminate H].
    injection H as <-.
    unfold pivot_to_long_format, bind at 1. cbn [months for_each].
    unfold bind at 1. unfold month_frame, bind, print, lift, getitem_list.
    cbn [columns].
    change (rmap (fun k => get_loc k (new_columns ++ ["station"]))
                 (id_cols ++ [("Jan" ++ "_date")%string;
                              ("Jan" ++ "_snow_depth_in")%string;
                              ("Jan" ++ "_swe_in")%string]))
      with (Raise (A := list (list nat)) (KeyError "site_name")).
    reflexivity.
  - unfold parse_snow_data in H. destruct raw; [discriminate H|].
    rewrite Hstart in H. discriminate H.
Qed.

Lemma pivot_of_parsed_raises_run :
  exists df,
    parse_snow_data Samples.read_csv (Some Samples.report) (Str "05J01") = Ok (Some df) /\
    fst (pivot_to_long_format df initial) = Raise (KeyError "site_name").
Proof.
  destruct (parse_snow_data Samples.read_csv (Some Samples.report) (Str "05J01"))
    as [[df|]|e] eqn:H; try (vm_compute in H; discriminate H).
  exists df. split; [reflexivity|].
  exact (pivot_of_parsed_raises _ _ _ _ initial H).
Defined.

Lemma pivot_to_long_format_rows_run :
  exists long st',
    pivot_to_long_format Samples.wide initial = (Ok long, st') /\
    Permutation (rows long)
      [ [Int 1936; Str "05J01"; Str "Berthoud Pass"; Str "Grand"; Str "39.80";
         Str "-105.78"; Str "Jan"; Str "Jan 30"; Int 32; Str "10.5"];
        [Int 1936; Str "05J01"; Str "Berthoud Pass"; Str "Grand"; Str "39.80";
         Str "-105.78"; Str "Apr"; Str "Apr 02"; Int 44; Str "14.1"];
        [Int 1935; Str "05J01"; Str "Berthoud Pass"; Str "Grand"; Str "39.80";
         Str "-105.78"; Str "Apr"; Str "Apr 01"; Int 40; NaN] ].
Proof.
  destruct (pivot_to_long_format Samples.wide initial) as [[long|e] st'] eqn:H;
    [|vm_compute in H; discriminate H].
  exists long, st'. split; [reflexivity|].
  exact (pivot_to_long_format_rows _ _ _ _ H).
Defined.

Lemma pivot_to_long_format_count_run :
  exists long st',
    pivot_to_long_format Samples.wide initial = (Ok long, st') /\
    len long = 3 /\ len long <= 6 * len Samples.wide.
Proof.
  destruct (pivot_to_long_format Samples.wide initial) as [[long|e] st'] eqn:H;
    [|vm_compute in H; discriminate H].
  exists long, st'. split; [reflexivity|].
  destruct (pivot_to_long_format_count _ _ _ _ H) as [H1 [H2 _]].
  split; [exact H1 | exact H2].
Defined.

(** ** What only prints *)

Lemma only_prints_ret {A} (a : A) : only_prints (ret a).
Proof. intros st. now split. Qed.

Lemma only_prints_lift {A} (r : result A) : only_prints (lift r).
Proof. intros st. now split. Qed.

Lemma only_prints_print (o : output) : only_prints (print o).
Proof. intros st. now split. Qed.

Lemma only_prints_bind {A B} (m : M A) (k : A -> M B) :
  only_prints m -> (forall a, only_prints (k a)) -> only_prints (bind m k).
Proof.
  intros Hm Hk st. unfold bind. specialize (Hm st).
  destruct (m st) as [[a|e] st1]; cbn [snd] in *; [|exact Hm].
  destruct (Hk a st1) as [H1 H2]. destruct Hm as [H3 H4]. split; congruence.
Qed.

Lemma only_prints_try_except {A} (body : M A) (handler : exn -> M A) :
  only_prints body -> (forall e, only_prints (handler e)) ->
  only_prints (try_except body handler).
Proof.
  intros Hm Hk st. unfold try_except. specialize (Hm st).
  destruct (body st) as [[a|e] st1]; cbn [snd] in *; [exact Hm|].
  destruct (Hk e st1) as [H1 H2]. destruct Hm as [H3 H4]. split; congruence.
Qed.

Lemma only_prints_for_each {A B} (body : B -> A -> M B) (l : list A) (acc : B) :
  (forall acc x, only_prints (body acc x)) -> only_prints (for_each body l acc).
Proof.
  intros H. revert acc. induction l as [|x l IH]; intros acc; simpl.
  - apply only_prints_ret.
  - apply only_prints_bind; [apply H | intros a; apply IH].
Qed.

Create HintDb prints.
#[local] Hint Resolve only_prints_ret only_prints_lift only_prints_print
  only_prints_bind only_prints_try_except only_prints_for_each : prints.

Lemma get_colorado_sites_only_prints
  (http_get : string -> http_outcome) (html_table : string -> option (list table_row)) :
  only_prints (get_colorado_sites http_get html_table).
Proof.
  unfold get_colorado_sites, scan_link.
  apply only_prints_bind; [solve [auto with prints]|]. intros response.
  apply only_prints_bind; [|auto with prints].
  destruct (html_table (text response)); [|auto with prints].
  apply only_prints_for_each. intros acc row.
  apply only_prints_for_each. intros acc0 href.
  destruct (contains "station" href && contains "snowmonth_hist" href); [|auto with prints].
  apply only_prints_bind; [solve [auto with prints]|]. intros _.
  destruct (search_station href); [|auto with prints].
  repeat (apply only_prints_bind; [solve [auto with prints]|]; intros ?).
  auto with prints.
Qed.

(** X18. [get_colorado_sites], [download_site_data] and
    [pivot_to_long_format] only print: whether they return or raise, they
    leave the files as they were and do not sleep. *)
Theorem helpers_only_print
  (http_get : string -> http_outcome) (html_table : string -> option (list table_row)) :
  only_prints (get_colorado_sites http_get html_table) /\
  (forall site_num, only_prints (download_site_data http_get site_num)) /\
  (forall df, only_prints (pivot_to_long_format df)).
Proof.
  split; [apply get_colorado_sites_only_prints|]. split.
  - intros site_num. unfold download_site_data. apply only_prints_try_except.
    + repeat (apply only_prints_bind; [solve [auto with prints]|]; intros ?).
      auto with prints.
    + intros e. apply only_prints_bind; auto with prints.
  - intros df. unfold pivot_to_long_format.
    apply only_prints_bind.
    + apply only_prints_for_each. intros acc month. unfold month_frame.
      repeat (apply only_prints_bind; [solve [auto with prints]|]; intros ?).
      auto with prints.
    + intros monthly.
      repeat (apply only_prints_bind; [solve [auto with prints]|]; intros ?).
      auto with prints.
Qed.

(** ** More on the aggregator *)

(** X19. A run of [download_all_colorado_sites] ends in one of four ways:
    it returns [None] (no station listed), or it raises [KeyError] for
    [site_num] (a station listed), [IndexError] (a directory row too short)
    or the failure of the directory request.  No run returns a table, none
    writes a file, none sleeps. *)
Theorem download_all_colorado_sites_outcomes
  (http_get : string -> http_outcome) (html_table : string -> option (list table_row))
  (read_csv : string -> result DataFrame) (save_path : string) (delay : Z) (st : state) :
  exists r st',
    download_all_colorado_sites http_get html_table read_csv save_path delay st = (r, st') /\
    files st' = files st /\ slept st' = slept st /\
    (r = Ok None \/ r = Raise (KeyError "site_num") \/ r = Raise IndexError \/
     exists e, r = Raise (RequestException e)).
Proof.
  pose proof (get_colorado_sites_only_prints http_get html_table
                (snd (print Out_fetching st))) as [Hf Hs].
  destruct (get_colorado_sites http_get html_table (snd (print Out_fetching st)))
    as [[sites_df|e] st1] eqn:Hsites; cbn [print snd files slept] in Hf, Hs.
  - pose proof (get_colorado_sites_columns _ _ _ _ _ Hsites) as Hcols.
    unfold download_all_colorado_sites, bind at 1. cbn [print snd] in Hsites |- *.
    unfold bind at 1. rewrite Hsites. unfold bind at 1. cbn [print snd].
    unfold iterrows, len. destruct (rows sites_df) as [|row rs].
    + eexists. eexists. split; [reflexivity|]. cbn. repeat split; auto.
    + cbn [List.length seq combine for_each]. unfold bind at 1.
      unfold process_site, bind at 1, lift at 1, series_getitem.
      rewrite Hcols. eexists. eexists. split; [reflexivity|]. cbn. repeat split; auto.
  - assert (He : e = IndexError \/ exists re, e = RequestException re).
    { unfold get_colorado_sites in Hsites. apply bind_raise in Hsites.
      destruct Hsites as [H|[response [s1 [_ H]]]].
      - unfold lift, requests_get in H. destruct (http_get sites_url) as [re|resp].
        + injection H as <- _. right. now exists re.
        + discriminate H.
      - apply bind_raise in H. destruct H as [H|[sites [s2 [_ H]]]]; [|discriminate H].
        left. destruct (html_table (text response)); [|discriminate H].
        revert H. apply (for_each_raise (fun e => e = IndexError)).
        intros acc row s e0 s'. apply (for_each_raise (fun e => e = IndexError)).
        intros acc0 href s0 e1 s0'. apply scan_link_raise. }
    unfold download_all_colorado_sites, bind at 1. cbn [print snd] in Hsites |- *.
    unfold bind at 1. rewrite Hsites.
    eexists. eexists. split; [reflexivity|]. repeat split; auto.
    destruct He as [->|[re ->]]; [auto | right; right; right; now exists re].
Qed.

(** X20. Given tables that [parse_snow_data] returned, at least one, the
    last step of the aggregator writes one file at the save path: the 20
    wide columns and the rows of the tables one after the other, in the
    order collected.  It returns that table, prints three lines and leaves
    the files written before in place; the rows are not pivoted. *)
Theorem save_all_writes_wide
  (read_csv : string -> result DataFrame) (t : DataFrame) (ts : list DataFrame)
  (save_path : string) (st : state) :
  Forall (fun t' => exists raw_data station,
                      parse_snow_data read_csv raw_data station = Ok (Some t')) (t :: ts) ->
  let combined := {| columns := new_columns ++ ["station"];
                     rows := flat_map rows (t :: ts) |} in
  save_all (t :: ts) save_path st =
  (Ok (Some combined),
   {| stdout := stdout st ++ [Out_downloaded_sites (S (List.length ts));
                              Out_saved save_path;
                              Out_total_rows (len combined)];
      files := (save_path, combined) :: files st;
      slept := slept st |}).
Proof.
  intros H combined.
  assert (Hcols : Forall (fun t' => columns t' = new_columns ++ ["station"]) (t :: ts)).
  { eapply Forall_impl; [|exact H]. intros t' [raw_data [station Ht]].
    destruct raw_data as [raw|]; [|discriminate Ht].
    destruct (find_data_start (split newline raw) 0) as [ds|] eqn:Hstart.
    - rewrite (parse_with_marker _ _ _ _ Hstart) in Ht.
      destruct (read_csv _); [|discriminate Ht].
      destruct (Nat.eqb _ 19); [|discriminate Ht]. now injection Ht as <-.
    - unfold parse_snow_data in Ht. destruct raw; [discriminate Ht|].
      rewrite Hstart in Ht. discriminate Ht. }
  unfold save_all, bind at 1, lift. rewrite (pd_concat_same _ _ _ Hcols).
  unfold bind, to_csv, print, ret. cbn [stdout files slept List.length].
  rewrite <- !app_assoc. reflexivity.
Qed.

Lemma save_all_writes_wide_run :
  exists t,
    parse_snow_data Samples.read_csv (Some Samples.report) (Str "05J01") = Ok (Some t) /\
    files (snd (save_all [t; t] "colorado_snow_data.csv" initial))
    = [("colorado_snow_data.csv",
        {| columns := new_columns ++ ["station"]; rows := rows t ++ rows t |})].
Proof.
  destruct (parse_snow_data Samples.read_csv (Some Samples.report) (Str "05J01"))
    as [[t|]|e] eqn:H; try (vm_compute in H; discriminate H).
  exists t. split; [reflexivity|].
  rewrite (save_all_writes_wide Samples.read_csv t [t] "colorado_snow_data.csv" initial).
  - cbn. now rewrite app_nil_r.
  - repeat constructor; exists (Some Samples.report), (Str "05J01"); exact H.
Defined.

(** ** The marker line and the links *)

Lemma find_data_start_some (lines : list string) (k i : nat) :
  find_data_start lines k = Some i ->
  exists n, i = k + n /\ n < List.length lines /\
            startswith (nth n lines "") "Water Year," = true /\
            forall j, j < n -> startswith (nth j lines "") "Water Year," = false.
Proof.
  revert k. induction lines as [|l lines IH]; intros k H; simpl in H; [discriminate H|].
  destruct (startswith l "Water Year,") eqn:Hl.
  - injection H as <-. exists 0. repeat split; [lia | simpl; lia | exact Hl | intros j Hj; lia].
  - apply IH in H. destruct H as [n [-> [Hn [Hs Hbefore]]]].
    exists (S n). repeat split; [lia | simpl; lia | exact Hs|].
    intros [|j] Hj; [exact Hl | apply Hbefore; lia].
Qed.

Lemma find_data_start_at (lines : list string) (k n : nat) :
  n < List.length lines ->
  startswith (nth n lines "") "Water Year," = true ->
  (forall j, j < n -> startswith (nth j lines "") "Water Year," = false) ->
  find_data_start lines k = Some (k + n).
Proof.
  revert k n. induction lines as [|l lines IH]; intros k n Hn Hs Hbefore;
    [simpl in Hn; lia|].
  destruct n as [|n]; simpl in *.
  - rewrite Hs. f_equal. lia.
  - rewrite (Hbefore 0) by lia. rewrite (IH (S k) n); [f_equal; lia | lia | exact Hs|].
    intros j Hj. apply (Hbefore (S j)). lia.
Qed.

(** X21. The data section starts at the first line that starts with the
    marker: the line number [parse_snow_data] settles on is that of a marker
    line with no marker line above it, and every report with a marker line
    has one. *)
Theorem find_data_start_first (lines : list string) (i : nat) :
  find_data_start lines 0 = Some i <->
  (i < List.length lines /\
   startswith (nth i lines "") "Water Year," = true /\
   forall j, j < i -> startswith (nth j lines "") "Water Year," = false).
Proof.
  split.
  - intros H. apply find_data_start_some in H. destruct H as [n [-> H]]. exact H.
  - intros [H1 [H2 H3]]. exact (find_data_start_at lines 0 i H1 H2 H3).
Qed.

Section LinkCount.
Variable http_get : string -> http_outcome.
Variable html_table : string -> option (list table_row).

Lemma scan_link_length (tds : list string) (sites sites' : list (list (string * string)))
  (href : string) (st st' : state) :
  scan_link tds sites href st = (Ok sites', st') ->
  List.length sites' = List.length sites + (if is_station_link href then 1 else 0).
Proof.
  intros H. unfold scan_link in H. unfold is_station_link.
  destruct (contains "station" href && contains "snowmonth_hist" href); cbn [andb].
  - apply bind_ok in H. destruct H as [[] [st1 [_ H]]].
    destruct (search_station href) as [station|].
    + repeat (apply bind_ok in H; destruct H as [? [? [_ H]]]).
      injection H as <- _. now rewrite length_app.
    + injection H as <- _. lia.
  - injection H as <- _. lia.
Qed.

Lemma links_loop_length (tds : list string) (links : list string) :
  forall sites sites' st st',
    for_each (scan_link tds) links sites st = (Ok sites', st') ->
    List.length sites' = List.length sites + List.length (filter is_station_link links).
Proof.
  induction links as [|href links IH]; intros sites sites' st st' H; simpl in H.
  - injection H as <- _. simpl. lia.
  - apply bind_ok in H. destruct H as [sites1 [st1 [H1 H2]]].
    apply scan_link_length in H1. apply IH in H2. rewrite H2, H1. cbn [filter].
    destruct (is_station_link href); simpl; lia.
Qed.

Lemma rows_loop_length (trs : list table_row) :
  forall sites sites' st st',
    for_each (fun sites row => for_each (scan_link (cells row)) (hrefs row) sites)
             trs sites st = (Ok sites', st') ->
    List.length sites' =
    List.length sites + List.length (filter is_station_link (flat_map hrefs trs)).
Proof.
  induction trs as [|row trs IH]; intros sites sites' st st' H; simpl in H.
  - injection H as <- _. simpl. lia.
  - apply bind_ok in H. destruct H as [sites1 [st1 [H1 H2]]].
    apply links_loop_length in H1. apply IH in H2. rewrite H2, H1.
    cbn [flat_map]. rewrite filter_app, length_app. lia.
Qed.

(** X22. The directory has one row per station link, not per row of the
    page: when [get_colorado_sites] returns, its table has as many rows as
    there are links, in the rows of the page below the first, that hold
    [station] and [snowmonth_hist] and a station identifier.  The first row
    of the page, its header, is never read. *)
Theorem get_colorado_sites_count (st st' : state) (sites_df : DataFrame) :
  get_colorado_sites http_get html_table st = (Ok sites_df, st') ->
  exists response,
    http_get sites_url = Responds response /\
    len sites_df =
    match html_table (text response) with
    | Some trs => List.length (filter is_station_link (flat_map hrefs (skipn 1 trs)))
    | None => 0
    end.
Proof.
  intros H. unfold get_colorado_sites in H.
  apply bind_ok in H. destruct H as [response [st1 [Hget H]]].
  apply lift_ok in Hget. destruct Hget as [Hget _].
  unfold requests_get in Hget.
  destruct (http_get sites_url) as [e|r]; [discriminate Hget|]. injection Hget as ->.
  exists response. split; [reflexivity|].
  apply bind_ok in H. destruct H as [sites [st2 [Hsites H]]].
  injection H as <- _. unfold len. rewrite records_rows.
  destruct (html_table (text response)) as [trs|].
  - apply rows_loop_length in Hsites. exact Hsites.
  - now injection Hsites as <- _.
Qed.

End LinkCount.

Lemma get_colorado_sites_count_run :
  exists sites_df st',
    get_colorado_sites (Samples.http_get 3) Samples.html_table initial = (Ok sites_df, st') /\
    len sites_df = 3.
Proof.
  destruct (get_colorado_sites (Samples.http_get 3) Samples.html_table initial)
    as [[sites_df|e] st'] eqn:H; [|vm_compute in H; discriminate H].
  exists sites_df, st'. split; [reflexivity|].
  destruct (get_colorado_sites_count _ _ _ _ _ H) as [response [Hget Hlen]].
  rewrite Hlen. vm_compute in Hget. injection Hget as <-. reflexivity.
Defined.

(** ** Rows of the directory that are too short *)

Section ShortRows.
Variable http_get : string -> http_outcome.
Variable html_table : string -> option (list table_row).

Lemma scan_link_short (tds : list string) (sites : list (list (string * string)))
  (href : string) (st : state) :
  is_station_link href = true ->
  List.length tds < 10 ->
  scan_link tds sites href st = (Raise IndexError, snd (print (Out_href href) st)).
Proof.
  unfold is_station_link. intros Hlink Hlen.
  apply andb_true_iff in Hlink. destruct Hlink as [Hfilter Hst].
  destruct (search_station href) as [station|] eqn:Es; [|discriminate Hst].
  unfold scan_link. rewrite Hfilter, Es. unfold bind at 1. cbn [print snd].
  assert (H9 : cell_text tds 9 = Raise IndexError).
  { unfold cell_text. now rewrite (proj2 (nth_error_None tds 9)) by lia. }
  unfold bind, lift.
  destruct (cell_text tds 1) as [a|e1] eqn:E1; [|now rewrite (cell_text_raise _ _ _ E1)].
  destruct (cell_text tds 5) as [b|e5] eqn:E5; [|now rewrite (cell_text_raise _ _ _ E5)].
  destruct (cell_text tds 6) as [c|e6] eqn:E6; [|now rewrite (cell_text_raise _ _ _ E6)].
  rewrite H9. reflexivity.
Qed.

(** The loop over the links of a short row does not get past a station
    link. *)
Lemma links_loop_short (tds : list string) (href : string) (links : list string) :
  List.length tds < 10 ->
  is_station_link href = true ->
  In href links ->
  forall sites st, exists st',
    for_each (scan_link tds) links sites st = (Raise IndexError, st').
Proof.
  intros Hlen Hlink. induction links as [|l links IH]; intros Hin sites st; [destruct Hin|].
  cbn [for_each]. unfold bind.
  destruct (scan_link tds sites l st) as [[sites1|e] st1] eqn:E.
  - destruct Hin as [->|Hin].
    + rewrite (scan_link_short _ _ _ _ Hlink Hlen) in E. discriminate E.
    + apply (IH Hin).
  - apply scan_link_raise in E. subst e. now exists st1.
Qed.

Lemma rows_loop_short (row : table_row) (href : string) (trs : list table_row) :
  List.length (cells row) < 10 ->
  is_station_link href = true ->
  In href (hrefs row) ->
  In row trs ->
  forall sites st, exists st',
    for_each (fun sites row => for_each (scan_link (cells row)) (hrefs row) sites)
             trs sites st = (Raise IndexError, st').
Proof.
  intros Hlen Hlink Hhref. induction trs as [|r trs IH]; intros Hin sites st; [destruct Hin|].
  cbn [for_each]. unfold bind.
  destruct (for_each (scan_link (cells r)) (hrefs r) sites st) as [[sites1|e] st1] eqn:E.
  - destruct Hin as [->|Hin].
    + destruct (links_loop_short _ _ _ Hlen Hlink Hhref sites st) as [st' E'].
      rewrite E' in E. discriminate E.
    + apply (IH Hin).
  - assert (e = IndexError); [|subst e; now exists st1].
    revert E. apply (for_each_raise (fun e => e = IndexError)).
    intros acc x s e0 s'. apply scan_link_raise.
Qed.

(** X3. A row of the directory, wherever it stands below the header row,
    that has fewer than ten cells and, among its links, one that names a
    station makes [get_colorado_sites] raise [IndexError]: the county is
    read from the tenth cell.  Nothing but printing has happened by then. *)
Theorem get_colorado_sites_short_row
  (response : response) (trs : list table_row) (row : table_row) (href : string)
  (st : state) :
  http_get sites_url = Responds response ->
  html_table (text response) = Some trs ->
  In row (skipn 1 trs) ->
  In href (hrefs row) ->
  is_station_link href = true ->
  List.length (cells row) < 10 ->
  exists st',
    get_colorado_sites http_get html_table st = (Raise IndexError, st') /\
    files st' = files st /\ slept st' = slept st.
Proof.
  intros H Htable Hrow Hhref Hlink Hlen.
  destruct (rows_loop_short _ _ _ Hlen Hlink Hhref Hrow [] st) as [st' Hloop].
  exists st'.
  assert (Hrun : get_colorado_sites http_get html_table st = (Raise IndexError, st')).
  { unfold get_colorado_sites, bind at 1, lift at 1, requests_get. rewrite H, Htable.
    unfold bind at 1. now rewrite Hloop. }
  split; [exact Hrun|].
  pose proof (get_colorado_sites_only_prints http_get html_table st) as Hp.
  rewrite Hrun in Hp. exact Hp.
Qed.

End ShortRows.

(** The short row is the second row below the header and the station link
    its second link. *)
Lemma get_colorado_sites_short_row_run :
  exists st',
    get_colorado_sites (Samples.answering 200 "page")
      (fun _ => Some [Samples.header_row;
                      Samples.station_row "05J01" "Berthoud Pass" "Grand";
                      {| hrefs := ["about.html"; "rgrpt?report=snowmonth_hist&station=06J02"];
                         cells := [""; "Cameron Pass"] |}])
      initial = (Raise IndexError, st') /\
    files st' = [] /\ slept st' = [].
Proof.
  apply (get_colorado_sites_short_row (Samples.answering 200 "page") _
           {| status_code := 200; text := "page" |}
           [Samples.header_row;
            Samples.station_row "05J01" "Berthoud Pass" "Grand";
            {| hrefs := ["about.html"; "rgrpt?report=snowmonth_hist&station=06J02"];
               cells := [""; "Cameron Pass"] |}]
           {| hrefs := ["about.html"; "rgrpt?report=snowmonth_hist&station=06J02"];
              cells := [""; "Cameron Pass"] |}
           "rgrpt?report=snowmonth_hist&station=06J02" initial).
  - reflexivity.
  - reflexivity.
  - cbn. right. now left.
  - cbn. right. now left.
  - vm_compute. reflexivity.
  - cbn. lia.
Defined.

(** ** Stations listed, none with data *)

(** C9. In this run the directory lists three stations and none yields
    data: every report request fails, so every download returns [None].
    [download_all_colorado_sites] does not report the failure and return
    [None]: it raises [KeyError: 'site_num'] at the first station, before
    any download, and the line saying that no data was downloaded is never
    printed.  No file is written. *)
Theorem download_all_colorado_sites_no_station_data :
  (exists sites_df st',
     get_colorado_sites (Samples.http_get_down 3) Samples.html_table initial
     = (Ok sites_df, st') /\
     map (field (columns sites_df) "station") (rows sites_df)
     = [Str "05J01"; Str "06J02"; Str "07K03"]) /\
  map (fun station => fst (download_site_data (Samples.http_get_down 3) station initial))
      [Str "05J01"; Str "06J02"; Str "07K03"]
  = [Ok None; Ok None; Ok None] /\
  fst (download_all_colorado_sites (Samples.http_get_down 3) Samples.html_table
         Samples.read_csv "colorado_snow_data.csv" 1 initial)
  = Raise (KeyError "site_num") /\
  ~ In Out_no_data_downloaded
       (stdout (snd (download_all_colorado_sites (Samples.http_get_down 3)
                       Samples.html_table Samples.read_csv
                       "colorado_snow_data.csv" 1 initial))) /\
  files (snd (download_all_colorado_sites (Samples.http_get_down 3) Samples.html_table
                Samples.read_csv "colorado_snow_data.csv" 1 initial)) = [].
Proof.
  split; [eexists; eexists; split; [vm_compute; reflexivity | reflexivity]|].
  split; [vm_compute; reflexivity|].
  split; [vm_compute; reflexivity|].
  split; [|vm_compute; reflexivity].
  intros H. vm_compute in H.
  repeat (destruct H as [H|H]; [discriminate H|]). exact H.
Qed.
